(** * Comparable-sales adjustment and trend-analysis engine

    A shallow embedding of the two scripts that make up the engine,
    [Market_Analysis.py] (column mapping, date filter, period validation,
    trend estimation) and [Adjustment_Analysis_.py] (time and living-area
    adjustments), followed by the properties of these scripts.

    Numbers.  A cell of a pandas float column is modelled by [fval]: an exact
    rational, plus or minus infinity, or NaN.  Arithmetic follows numpy's
    rules for the special values (a division by zero gives an infinity or
    NaN and raises nothing) and is exact on the rationals: binary rounding
    and signed zeros are left out.  Where a property depends on the
    rounding of the arithmetic (the sums of step 4 of the adjustment script,
    the comparison of the size difference with its threshold), the steps are
    embedded a second time on IEEE 754 doubles, in [Binary64].  Timestamps
    are integers counting microseconds; a missing timestamp (NaT) is
    [None]. *)

From Stdlib Require Import ZArith QArith Qabs Qround Bool List String Ascii Lia.
From Stdlib Require Import DecimalString Sorting.Sorted Sorting.Permutation.
From Stdlib Require Floats.
Set Warnings "-inexact-float".
Import ListNotations.

(* ================================================================== *)
(** ** Float cells *)
(* ================================================================== *)

Module Float.

Inductive fval : Type :=
| Fin (q : Q)
| PInf
| NInf
| NaN.

(** Finite values are kept in lowest terms, so that equal cells are equal
    terms. *)
Definition fin (q : Q) : fval := Fin (Qred q).

Definition of_Z (z : Z) : fval := fin (inject_Z z).

Definition sgn (q : Q) : comparison := (Qnum q ?= 0)%Z.

Definition fneg (x : fval) : fval :=
  match x with
  | Fin q => fin (- q)
  | PInf => NInf
  | NInf => PInf
  | NaN => NaN
  end.

Definition fadd (x y : fval) : fval :=
  match x, y with
  | NaN, _ | _, NaN => NaN
  | Fin a, Fin b => fin (a + b)
  | PInf, NInf | NInf, PInf => NaN
  | PInf, _ | _, PInf => PInf
  | NInf, _ | _, NInf => NInf
  end.

Definition fsub (x y : fval) : fval := fadd x (fneg y).

Definition fmul (x y : fval) : fval :=
  match x, y with
  | NaN, _ | _, NaN => NaN
  | Fin a, Fin b => fin (a * b)
  | Fin a, PInf | PInf, Fin a =>
      match sgn a with Eq => NaN | Gt => PInf | Lt => NInf end
  | Fin a, NInf | NInf, Fin a =>
      match sgn a with Eq => NaN | Gt => NInf | Lt => PInf end
  | PInf, PInf | NInf, NInf => PInf
  | PInf, NInf | NInf, PInf => NInf
  end.

(** numpy's true division: [x / 0] is an infinity of the sign of [x], and
    [0 / 0] is NaN. *)
Definition fdiv (x y : fval) : fval :=
  match x, y with
  | NaN, _ | _, NaN => NaN
  | Fin a, Fin b =>
      match sgn b with
      | Eq => match sgn a with Eq => NaN | Gt => PInf | Lt => NInf end
      | _ => fin (a / b)
      end
  | Fin _, PInf | Fin _, NInf => fin 0
  | PInf, Fin b => match sgn b with Lt => NInf | _ => PInf end
  | NInf, Fin b => match sgn b with Lt => PInf | _ => NInf end
  | _, _ => NaN
  end.

Definition fabs (x : fval) : fval :=
  match x with
  | Fin q => fin (Qabs q)
  | PInf | NInf => PInf
  | NaN => NaN
  end.

(** Comparisons: every comparison with NaN is false. *)
Definition fltb (x y : fval) : bool :=
  match x, y with
  | NaN, _ | _, NaN => false
  | Fin a, Fin b => negb (Qle_bool b a)
  | _, NInf => false
  | NInf, _ => true
  | PInf, _ => false
  | _, PInf => true
  end.

Definition fgtb (x y : fval) : bool := fltb y x.

Definition feqb (x y : fval) : bool :=
  match x, y with
  | Fin a, Fin b => Qeq_bool a b
  | PInf, PInf | NInf, NInf => true
  | _, _ => false
  end.

Definition is_finite (x : fval) : bool :=
  match x with Fin _ => true | _ => false end.

Definition fsum (xs : list fval) : fval := fold_left fadd xs (fin 0).

(** numpy's mean: NaN propagates. *)
Definition fmean (xs : list fval) : fval :=
  fdiv (fsum xs) (of_Z (Z.of_nat (List.length xs))).

Definition is_nan (x : fval) : bool :=
  match x with NaN => true | _ => false end.

(** pandas' [Series.mean()]: missing cells are skipped. *)
Definition series_mean (xs : list fval) : fval :=
  fmean (filter (fun x => negb (is_nan x)) xs).

End Float.
Import Float.

(* ================================================================== *)
(** ** Timestamps *)
(* ================================================================== *)

Module Time.

Definition Timestamp : Type := Z.

Definition ticks_per_day : Z := 86400000000.

(** [timedelta(days=n)]. *)
Definition timedelta_days (n : Z) : Z := n * ticks_per_day.

(** [.days] of a difference of timestamps: whole days, rounded down. *)
Definition days (delta : Z) : Z := delta / ticks_per_day.

(** [(a - b).dt.days]; NaN (here [None]) where the date is NaT. *)
Definition dt_days (a : Timestamp) (b : option Timestamp) : option Z :=
  match b with
  | Some t => Some (days (a - t))
  | None => None
  end.

(** [date <= bound] on a datetime column: false on NaT. *)
Definition on_or_before (date : option Timestamp) (bound : Timestamp) : bool :=
  match date with
  | Some t => (t <=? bound)%Z
  | None => false
  end.

(** [date >= bound] on a datetime column: false on NaT. *)
Definition on_or_after (date : option Timestamp) (bound : Timestamp) : bool :=
  match date with
  | Some t => (bound <=? t)%Z
  | None => false
  end.

End Time.
Import Time.

(* ================================================================== *)
(** ** Python string methods used by the column mapper *)
(* ================================================================== *)

Module Text.

(** [str.lower()] on ASCII letters; other bytes are unchanged. *)
Definition lower_ascii (c : ascii) : ascii :=
  let n := nat_of_ascii c in
  if (65 <=? n)%nat && (n <=? 90)%nat then ascii_of_nat (n + 32) else c.

Fixpoint lower (s : string) : string :=
  match s with
  | EmptyString => EmptyString
  | String c r => String (lower_ascii c) (lower r)
  end.

Definition is_space (c : ascii) : bool :=
  let n := nat_of_ascii c in
  (n =? 32)%nat || ((9 <=? n)%nat && (n <=? 13)%nat)
  || ((28 <=? n)%nat && (n <=? 31)%nat).

Fixpoint lstrip (s : string) : string :=
  match s with
  | EmptyString => EmptyString
  | String c r => if is_space c then lstrip r else s
  end.

Fixpoint rstrip (s : string) : string :=
  match s with
  | EmptyString => EmptyString
  | String c r =>
      match rstrip r with
      | EmptyString => if is_space c then EmptyString else String c EmptyString
      | r' => String c r'
      end
  end.

(** [str.strip()]. *)
Definition strip (s : string) : string := rstrip (lstrip s).

(** [sub in s]. *)
Fixpoint isin (sub s : string) : bool :=
  String.prefix sub s
  || match s with
     | EmptyString => false
     | String _ r => isin sub r
     end.

(** [s.startswith(p)]. *)
Definition startswith (s p : string) : bool := String.prefix p s.

(** [x in xs] for a list of strings. *)
Definition mem (x : string) (xs : list string) : bool :=
  existsb (String.eqb x) xs.

(** [str(n)] of a natural number. *)
Definition str_nat (n : nat) : string := NilZero.string_of_uint (Nat.to_uint n).

(** [int(x)]: truncation toward zero. *)
Definition int (q : Q) : Z :=
  if Qle_bool 0 q then Qfloor q else Qceiling q.

(** [round(q)] to the nearest integer, ties to the even one. *)
Definition round_half_even (q : Q) : Z :=
  let f := Qfloor q in
  match Qcompare (q - inject_Z f) (1 # 2) with
  | Lt => f
  | Gt => (f + 1)%Z
  | Eq => if Z.even f then f else (f + 1)%Z
  end.

(** [f"{x:.1f}"]: one decimal, the sign taken from [x]. *)
Definition fmt_1f (x : fval) : string :=
  match x with
  | NaN => "nan"
  | PInf => "inf"
  | NInf => "-inf"
  | Fin q =>
      let t := round_half_even (Qabs q * inject_Z 10) in
      ((if negb (Qle_bool 0 q) then "-" else "")
       ++ str_nat (Z.to_nat (t / 10)) ++ "." ++ str_nat (Z.to_nat (t mod 10)))%string
  end.

End Text.
Import Text.

(* ================================================================== *)
(** ** scipy.stats.linregress *)
(* ================================================================== *)

Module Scipy.

(** [np.amax(x) == np.amin(x)]: false as soon as a NaN is present. *)
Definition all_identical (xs : list fval) : bool :=
  match xs with
  | [] => true
  | x :: r => feqb x x && forallb (feqb x) r
  end.

Fixpoint map2 {A B C : Type} (f : A -> B -> C) (xs : list A) (ys : list B)
  : list C :=
  match xs, ys with
  | x :: xs', y :: ys' => f x y :: map2 f xs' ys'
  | _, _ => []
  end.

(** The least-squares line of [y] against [x]: slope, intercept and the
    square of the correlation coefficient (the scripts only ever use
    [r_value ** 2]).  [None] stands for the [ValueError] raised on empty
    input and on an [x] column whose values are all identical. *)
Definition linregress (x y : list fval) : option (fval * fval * fval) :=
  if ((List.length x =? 0)%nat || (List.length y =? 0)%nat)%bool then None
  else if (all_identical x && (1 <? List.length x)%nat)%bool then None
  else
    let xmean := fmean x in
    let ymean := fmean y in
    let dx := map (fun v => fsub v xmean) x in
    let dy := map (fun v => fsub v ymean) y in
    let ssxm := fmean (map (fun d => fmul d d) dx) in
    let ssxym := fmean (map2 fmul dx dy) in
    let ssym := fmean (map (fun d => fmul d d) dy) in
    let r_squared :=
      if (feqb ssxm (fin 0) || feqb ssym (fin 0))%bool then fin 0
      else fdiv (fmul ssxym ssxym) (fmul ssxm ssym) in
    let slope := fdiv ssxym ssxm in
    let intercept := fsub ymean (fmul slope xmean) in
    Some (slope, intercept, r_squared).

End Scipy.

(* ================================================================== *)
(** ** Market_Analysis.py *)
(* ================================================================== *)

Module MarketAnalysis.

Local Open Scope string_scope.

(** *** Column mapper (the heuristic rename and the required columns) *)

(** The branch of the [if]/[elif] chain that a header falls in: the
    canonical name stored in [rename_map] for it, if any. *)
Definition rename_target (col : string) : option string :=
  let low := lower col in
  if (isin "price" low && (isin "close" low || isin "sale" low))
     || String.eqb (strip low) "price" then Some "Sale_Price"
  else if ((isin "close" low || isin "sale" low) && isin "date" low)
     || mem (strip low) ["closedate"; "saledate"] then Some "Sale_Date"
  else if isin "living" low || isin "gla" low || isin "sqft" low
     || isin "square" low then Some "Living_Area"
  else if isin "bed" low && negb (isin "room" low) then Some "Bedrooms"
  else if isin "bath" low then Some "Bathrooms"
  else if isin "street number" low || isin "street_number" low
     || isin "street no" low then Some "Street_Number"
  else if (isin "street" low && isin "name" low)
     || (startswith low "street" && negb (isin "name" low) && isin "st" low)
  then Some "Street_Name"
  else if String.eqb "dom" low || isin "days on market" low
     || isin "days active" low || isin "days_active" low then Some "DOM"
  else if isin "cdom" low || isin "cumulative" low then Some "CDOM"
  else if isin "garage" low then Some "Garage"
  else None.

(** [df.columns = [c.strip() for c in df.columns]] followed by
    [df.rename(columns=rename_map)]: the header row after mapping. *)
Definition mapped_columns (columns : list string) : list string :=
  map (fun col => match rename_target col with
                  | Some canonical => canonical
                  | None => col
                  end)
      (map strip columns).

Definition required_final : list string :=
  ["Sale_Price"; "Sale_Date"; "Living_Area"; "Bedrooms"; "Bathrooms";
   "Street_Number"; "Street_Name"; "DOM"; "CDOM"; "Garage"].

Definition missing_final (columns : list string) : list string :=
  filter (fun c => negb (mem c (mapped_columns columns))) required_final.

(** *** Configuration taken from the form *)

Record form_data : Type := {
  address : option string;
  living_area : option Z;
  bedrooms_total : option Z;
  bathrooms_total : option Q;
  DATE_OF_VALUE : Timestamp;
  TIME_ADJUSTMENT_THRESHOLD_DAYS : Z;
  LIVING_AREA_ADJUSTMENT_THRESHOLD_PCT : fval
}.

Definition SUBJECT_ADDRESS (form : form_data) : string :=
  match address form with Some a => a | None => "N/A" end.

Definition SUBJECT_LIVING_AREA (form : form_data) : Z :=
  match living_area form with Some a => a | None => 0%Z end.

(** [not form_data.get(f)]: the key is absent, or its value is empty or
    zero. *)
Definition missing_fields (form : form_data) : list string :=
  (match address form with
   | None | Some "" => ["address"] | _ => [] end)
  ++ (match living_area form with
      | None | Some 0%Z => ["living_area"] | _ => [] end)
  ++ (match bedrooms_total form with
      | None | Some 0%Z => ["bedrooms_total"] | _ => [] end)
  ++ (match bathrooms_total form with
      | None => ["bathrooms_total"]
      | Some b => if Qeq_bool b 0 then ["bathrooms_total"] else []
      end).

(** *** The sales table *)

(** One row of the table after the rename, [Sale_Date] already passed
    through [pd.to_datetime(errors='coerce')]: a cell that does not parse
    is NaT, here [None]. *)
Record sale : Type := {
  Sale_Price : fval;
  Sale_Date : option Timestamp;
  Living_Area : fval;
  Street_Number : string;
  Street_Name : string
}.

(** A row with the two derived columns. *)
Record processed_sale : Type := {
  row : sale;
  Price_Per_SF : fval;
  Days_From_DOV : option Z
}.

Definition date_of (s : processed_sale) : option Timestamp :=
  Sale_Date (row s).

(** [df[df['Sale_Date'] <= DATE_OF_VALUE]]. *)
Definition filter_on_or_before (dov : Timestamp) (df : list sale) : list sale :=
  filter (fun s => on_or_before (Sale_Date s) dov) df.

(** The two derived columns of one row. *)
Definition derive (dov : Timestamp) (s : sale) : processed_sale :=
  {| row := s;
     Price_Per_SF := fdiv (Sale_Price s) (Living_Area s);
     Days_From_DOV := dt_days dov (Sale_Date s) |}.

(** Order of [sort_values('Sale_Date')]: ascending, NaT last. *)
Definition date_leb (a b : option Timestamp) : bool :=
  match a, b with
  | Some x, Some y => (x <=? y)%Z
  | Some _, None => true
  | None, Some _ => false
  | None, None => true
  end.

Fixpoint insert_by_date (s : processed_sale) (l : list processed_sale)
  : list processed_sale :=
  match l with
  | [] => [s]
  | h :: t =>
      if date_leb (date_of s) (date_of h) then s :: l
      else h :: insert_by_date s t
  end.

(** [df.sort_values('Sale_Date').reset_index(drop=True)].  pandas leaves
    the order of rows of equal date unspecified; the insertion sort here
    fixes one. *)
Fixpoint sort_values (df : list processed_sale) : list processed_sale :=
  match df with
  | [] => []
  | h :: t => insert_by_date h (sort_values t)
  end.

(** [df['Sale_Date'].min()] and [.max()]: NaT is skipped, and the result is
    NaT on a column with no date. *)
Definition date_min (df : list processed_sale) : option Timestamp :=
  fold_left (fun acc s =>
               match acc, date_of s with
               | Some a, Some d => Some (Z.min a d)
               | None, d => d
               | a, None => a
               end) df None.

Definition date_max (df : list processed_sale) : option Timestamp :=
  fold_left (fun acc s =>
               match acc, date_of s with
               | Some a, Some d => Some (Z.max a d)
               | None, d => d
               | a, None => a
               end) df None.

(** *** Step 2: data coverage and the period ladder *)

Module Valid.
Record t : Type := {
  name : string;
  months : Z;
  sales_count : nat;
  cutoff_date : Timestamp;
  status : string
}.
End Valid.

Module Omitted.
Record t : Type := {
  name : string;
  months : Z;
  reason : string;
  sales_count : nat
}.
End Omitted.

(** What the script prints about the table and the periods. *)
Inductive log_line : Type :=
| MissingFinalColumns (columns : list string)
| MissingFormFields (fields : list string)
| SalesOnOrBefore (n : nat)
| NoSalesWarning
| Coverage (earliest latest : option Timestamp) (coverage_months : fval)
           (coverage_days : option Z)
| Omit (period_name reason : string)
| Include (period_name : string) (n : nat) (status_flag : string)
| PeriodSummary (included omitted : nat)
| InsufficientTrendData
| MarketTrend (label : string)
| AnalysisComplete (n_sales n_periods : nat).

Definition time_periods : list (string * Z) :=
  [("0-3 months", 3%Z); ("4-6 months", 6%Z); ("7-9 months", 9%Z);
   ("9-12 months", 12%Z); ("0-6 months", 6%Z); ("0-12 months", 12%Z);
   ("0-18 months", 18%Z); ("0-24 months", 24%Z); ("0-36 months", 36%Z)].

Definition buffer_months : Z := 1.

(** [DATE_OF_VALUE - timedelta(days=int(period_months * 30.44))]. *)
Definition cutoff (dov : Timestamp) (period_months : Z) : Timestamp :=
  (dov - timedelta_days (int (inject_Z period_months * 30.44)))%Z.

(** [len(df[df['Sale_Date'] >= cutoff_date])]. *)
Definition count_since (df : list processed_sale) (cutoff_date : Timestamp)
  : nat :=
  List.length (filter (fun s => on_or_after (date_of s) cutoff_date) df).

(** [(DATE_OF_VALUE - earliest_sale).days] and the same over 30.44. *)
Definition actual_coverage_days (dov : Timestamp) (df : list processed_sale)
  : option Z :=
  dt_days dov (date_min df).

Definition actual_coverage_months (dov : Timestamp) (df : list processed_sale)
  : fval :=
  match actual_coverage_days dov df with
  | Some d => fdiv (of_Z d) (fin 30.44)
  | None => NaN
  end.

(** The three variables the validation loop updates. *)
Record validation : Type := {
  valid_periods : list Valid.t;
  omitted_periods : list Omitted.t;
  printed : list log_line
}.

Definition omit (st : validation) (period_name : string) (period_months : Z)
  (why : string) (sales_count : nat) : validation :=
  {| valid_periods := valid_periods st;
     omitted_periods :=
       omitted_periods st
       ++ [ {| Omitted.name := period_name;
               Omitted.months := period_months;
               Omitted.reason := why;
               Omitted.sales_count := sales_count |} ];
     printed := printed st ++ [Omit period_name why] |}.

Definition include (st : validation) (period_name : string)
  (period_months : Z) (sales_count : nat) (cutoff_date : Timestamp)
  : validation :=
  let status_flag :=
    if (sales_count <? 3)%nat then " ⚠ INSUFFICIENT DATA" else "" in
  {| valid_periods :=
       valid_periods st
       ++ [ {| Valid.name := period_name;
               Valid.months := period_months;
               Valid.sales_count := sales_count;
               Valid.cutoff_date := cutoff_date;
               Valid.status := "valid" |} ];
     omitted_periods := omitted_periods st;
     printed := printed st ++ [Include period_name sales_count status_flag] |}.

(** [valid_periods[-1]] when [valid_periods] is not empty. *)
Definition last_valid (st : validation) : option Valid.t :=
  match rev (valid_periods st) with
  | [] => None
  | p :: _ => Some p
  end.

(** One pass of the body of the [for] loop over [time_periods]. *)
Definition validate_period (dov : Timestamp) (df : list processed_sale)
  (coverage_months : fval) (st : validation) (period : string * Z)
  : validation :=
  let '(period_name, period_months) := period in
  let cutoff_date := cutoff dov period_months in
  let sales_count := count_since df cutoff_date in
  if fgtb (of_Z period_months) (fadd coverage_months (of_Z buffer_months))
  then
    omit st period_name period_months
      ("extends beyond data coverage (" ++ fmt_1f coverage_months
       ++ " months)")
      sales_count
  else
    match last_valid st with
    | Some prev =>
        if (sales_count =? Valid.sales_count prev)%nat then
          omit st period_name period_months
            ("identical sales count to " ++ Valid.name prev ++ " (n="
             ++ str_nat sales_count ++ ")")
            sales_count
        else include st period_name period_months sales_count cutoff_date
    | None => include st period_name period_months sales_count cutoff_date
    end.

Definition no_periods : validation :=
  {| valid_periods := []; omitted_periods := []; printed := [] |}.

(** The whole loop, over any ladder. *)
Definition validate_ladder (dov : Timestamp) (df : list processed_sale)
  (ladder : list (string * Z)) : validation :=
  fold_left (validate_period dov df (actual_coverage_months dov df))
            ladder no_periods.

Definition validate_periods (dov : Timestamp) (df : list processed_sale)
  : validation :=
  validate_ladder dov df time_periods.

(** *** Step 4: trend analysis *)

(** The variables of the trend step.  [r_squared_price] is
    [r_value_price ** 2], the only form in which the script uses the
    correlation coefficient. *)
Record trend : Type := {
  slope_price : fval;
  intercept_price : fval;
  r_squared_price : fval;
  slope_pricesf : fval;
  intercept_pricesf : fval;
  daily_price_change : fval;
  monthly_price_change_pct : fval;
  market_trend : string
}.

(** The [if]/[elif] chain that determines the market trend. *)
Definition classify_market_trend (daily_change r_squared : fval) : string :=
  if fgtb daily_change (fin 0.50) then "INCREASING"
  else if fltb daily_change (fin (-0.50)) then "DECREASING"
  else if fltb r_squared (fin 0.3) then "UNSTABLE"
  else "STABLE".

(** The rows the trend is fitted on. *)
Definition trend_rows (dov : Timestamp) (df : list processed_sale)
  (valid : list Valid.t) : list processed_sale :=
  if mem "0-12 months" (map Valid.name valid) then
    filter (fun s => on_or_after (date_of s) (cutoff dov 12)) df
  else df.

(** [(trend_df['Sale_Date'] - trend_df['Sale_Date'].min()).dt.days]. *)
Definition Days_Numeric (trend_df : list processed_sale) : list fval :=
  map (fun s =>
         match date_of s, date_min trend_df with
         | Some d, Some first => of_Z (days (d - first))
         | _, _ => NaN
         end) trend_df.

Definition insufficient_trend : trend :=
  {| slope_price := fin 0; intercept_price := fin 0;
     r_squared_price := fin 0;
     slope_pricesf := fin 0; intercept_pricesf := fin 0;
     daily_price_change := fin 0; monthly_price_change_pct := fin 0;
     market_trend := "INSUFFICIENT DATA" |}.

(** Step 4 on the chosen rows; [None] when [linregress] raises. *)
Definition trend_analysis (trend_df : list processed_sale) : option trend :=
  if (2 <=? List.length trend_df)%nat then
    let prices := map (fun s => Sale_Price (row s)) trend_df in
    match Scipy.linregress (Days_Numeric trend_df) prices,
          Scipy.linregress (Days_Numeric trend_df) (map Price_Per_SF trend_df)
    with
    | Some (slope, intercept, r2), Some (slope_sf, intercept_sf, _) =>
        Some {| slope_price := slope; intercept_price := intercept;
                r_squared_price := r2;
                slope_pricesf := slope_sf; intercept_pricesf := intercept_sf;
                daily_price_change := slope;
                monthly_price_change_pct :=
                  fmul (fdiv (fmul slope (fin 30.44)) (series_mean prices))
                       (fin 100);
                market_trend := classify_market_trend slope r2 |}
    | _, _ => None
    end
  else Some insufficient_trend.

(** The [trend_results] dictionary. *)
Module TrendResults.
Record t : Type := {
  slope_price : fval;
  daily_price_change : fval;
  monthly_price_change_pct : fval;
  slope_pricesf : fval;
  market_trend : string;
  r_squared : fval
}.
End TrendResults.

Definition trend_results (trend_df : list processed_sale) (t : trend)
  : TrendResults.t :=
  let enough := (2 <=? List.length trend_df)%nat in
  let guard (v : fval) := if enough then v else fin 0 in
  {| TrendResults.slope_price := guard (slope_price t);
     TrendResults.daily_price_change := guard (daily_price_change t);
     TrendResults.monthly_price_change_pct :=
       guard (monthly_price_change_pct t);
     TrendResults.slope_pricesf := guard (slope_pricesf t);
     TrendResults.market_trend := market_trend t;
     TrendResults.r_squared := guard (r_squared_price t) |}.

(** *** The files written and the whole script *)

(** [validation_info.json]: a key that a branch does not write is [None]
    (the report and market-segment entries, copied from the form, are left
    out). *)
Record validation_info : Type := {
  vi_date_of_value : Timestamp;
  vi_message : option string;
  vi_earliest_sale : option Timestamp;
  vi_latest_sale : option Timestamp;
  vi_actual_coverage_months : option fval;
  vi_valid_periods : option (list Valid.t);
  vi_omitted_periods : option (list Omitted.t);
  vi_trend_results : option TrendResults.t;
  vi_subject_address : string;
  vi_subject_living_area : Z;
  vi_thresholds : option (Z * fval)
}.

Record files : Type := {
  validation_info_json : validation_info;
  sales_data_processed_csv : list processed_sale
}.

Inductive outcome : Type :=
| Exit (code : Z) (stdout : list log_line) (written : option files)
| Raised (stdout : list log_line).

(** The record written when no sale is left after the date filter. *)
Definition empty_validation_info (form : form_data) : validation_info :=
  {| vi_date_of_value := DATE_OF_VALUE form;
     vi_message := Some "No sales on or before date of value";
     vi_earliest_sale := None;
     vi_latest_sale := None;
     vi_actual_coverage_months := None;
     vi_valid_periods := None;
     vi_omitted_periods := None;
     vi_trend_results := None;
     vi_subject_address := SUBJECT_ADDRESS form;
     vi_subject_living_area := SUBJECT_LIVING_AREA form;
     vi_thresholds := None |}.

(** Steps 1 (after the filter) to 4 on a table that is not empty.  Step 3,
    the descriptive statistics of each valid period, reads the same table
    and writes a file of its own; it is not modelled. *)
Definition analyse (form : form_data) (kept : list sale)
  (out : list log_line) : outcome :=
  let dov := DATE_OF_VALUE form in
  let df := sort_values (map (derive dov) kept) in
  let v := validate_periods dov df in
  let out :=
    (out
     ++ [Coverage (date_min df) (date_max df) (actual_coverage_months dov df)
                  (actual_coverage_days dov df)]
     ++ printed v
     ++ [PeriodSummary (List.length (valid_periods v))
                       (List.length (omitted_periods v))])%list in
  let trend_df := trend_rows dov df (valid_periods v) in
  match trend_analysis trend_df with
  | None => Raised out
  | Some t =>
      let out :=
        (out
         ++ [if (2 <=? List.length trend_df)%nat
             then MarketTrend (market_trend t) else InsufficientTrendData]
         ++ [AnalysisComplete (List.length df)
                              (List.length (valid_periods v))])%list in
      Exit 0 out
        (Some {| validation_info_json :=
                   {| vi_date_of_value := dov;
                      vi_message := None;
                      vi_earliest_sale := date_min df;
                      vi_latest_sale := date_max df;
                      vi_actual_coverage_months :=
                        Some (actual_coverage_months dov df);
                      vi_valid_periods := Some (valid_periods v);
                      vi_omitted_periods := Some (omitted_periods v);
                      vi_trend_results := Some (trend_results trend_df t);
                      vi_subject_address := SUBJECT_ADDRESS form;
                      vi_subject_living_area := SUBJECT_LIVING_AREA form;
                      vi_thresholds :=
                        Some (TIME_ADJUSTMENT_THRESHOLD_DAYS form,
                              LIVING_AREA_ADJUSTMENT_THRESHOLD_PCT form) |};
                 sales_data_processed_csv := df |})
  end.

(** The script, from the loaded CSV (its header row and its rows) on. *)
Definition Market_Analysis (form : form_data) (columns : list string)
  (df : list sale) : outcome :=
  match missing_final columns with
  | (_ :: _) as missing => Exit 1 [MissingFinalColumns missing] None
  | [] =>
      match missing_fields form with
      | (_ :: _) as missing => Exit 1 [MissingFormFields missing] None
      | [] =>
          let kept := filter_on_or_before (DATE_OF_VALUE form) df in
          let out := [SalesOnOrBefore (List.length kept)] in
          match kept with
          | [] =>
              Exit 0 (out ++ [NoSalesWarning])%list
                (Some {| validation_info_json := empty_validation_info form;
                         sales_data_processed_csv := [] |})
          | _ :: _ => analyse form kept out
          end
      end
  end.

End MarketAnalysis.

(* ================================================================== *)
(** ** Adjustment_Analysis_.py *)
(* ================================================================== *)

Module AdjustmentAnalysis.

Import MarketAnalysis.

(** The values read back from [validation_info.json]. *)
Record config : Type := {
  SUBJECT_LIVING_AREA : Z;
  DATE_OF_VALUE : Timestamp;
  TIME_THRESHOLD_DAYS : Z;
  SF_THRESHOLD_PCT : fval;
  monthly_trend_pct : fval;
  daily_price_change : fval
}.

(** One row of [adjusted_sales.csv]: the processed row and the columns the
    script adds to it. *)
Record adjusted_sale : Type := {
  comp : processed_sale;
  Days_Difference : option Z;
  Time_Adj_Amount : fval;
  Time_Adj_Pct : fval;
  SF_Difference : fval;
  SF_Difference_Pct : fval;
  SF_Adj_Amount : fval;
  SF_Adj_Pct : fval;
  Net_Adj_Amount : fval;
  Net_Adj_Pct : fval;
  Adjusted_Sale_Price : fval;
  Adjusted_Price_Per_SF : fval
}.

(** Step 2, one pass of the loop: the pair [(Time_Adj_Amount, Time_Adj_Pct)]
    of a row.  A missing day count compares false with the threshold. *)
Definition time_adjustment (cfg : config) (days_diff : option Z)
  : fval * fval :=
  match days_diff with
  | Some d =>
      if (Z.abs d >? TIME_THRESHOLD_DAYS cfg)%Z then
        (fmul (daily_price_change cfg) (of_Z d),
         fmul (fdiv (monthly_trend_pct cfg) (fin 30.44)) (of_Z d))
      else (fin 0, fin 0)
  | None => (fin 0, fin 0)
  end.

Definition sf_difference (cfg : config) (living_area : fval) : fval :=
  fsub living_area (of_Z (SUBJECT_LIVING_AREA cfg)).

Definition sf_difference_pct (cfg : config) (living_area : fval) : fval :=
  fmul (fdiv (sf_difference cfg living_area) (of_Z (SUBJECT_LIVING_AREA cfg)))
       (fin 100).

(** Step 3, one pass of the loop: the pair [(SF_Adj_Amount, SF_Adj_Pct)]. *)
Definition sf_adjustment (cfg : config) (marginal_value_per_sf : fval)
  (living_area : fval) : fval * fval :=
  let sf_diff_pct := fabs (sf_difference_pct cfg living_area) in
  if fgtb sf_diff_pct (SF_THRESHOLD_PCT cfg) then
    let sf_diff := sf_difference cfg living_area in
    (fmul (fneg sf_diff) marginal_value_per_sf,
     fmul (fneg (fdiv sf_diff (of_Z (SUBJECT_LIVING_AREA cfg)))) (fin 100))
  else (fin 0, fin 0).

(** Steps 2 to 4 for one comparable, given the marginal value per square
    foot of the batch. *)
Definition adjust (cfg : config) (marginal_value_per_sf : fval)
  (s : processed_sale) : adjusted_sale :=
  let days_diff := dt_days (DATE_OF_VALUE cfg) (date_of s) in
  let '(time_amount, time_pct) := time_adjustment cfg days_diff in
  let living := Living_Area (row s) in
  let '(sf_amount, sf_pct) := sf_adjustment cfg marginal_value_per_sf living in
  let net_amount := fadd time_amount sf_amount in
  let adjusted := fadd (Sale_Price (row s)) net_amount in
  {| comp := s;
     Days_Difference := days_diff;
     Time_Adj_Amount := time_amount;
     Time_Adj_Pct := time_pct;
     SF_Difference := sf_difference cfg living;
     SF_Difference_Pct := sf_difference_pct cfg living;
     SF_Adj_Amount := sf_amount;
     SF_Adj_Pct := sf_pct;
     Net_Adj_Amount := net_amount;
     Net_Adj_Pct := fadd time_pct sf_pct;
     Adjusted_Sale_Price := adjusted;
     Adjusted_Price_Per_SF := fdiv adjusted living |}.

(** [slope_sf] of [linregress(Living_Area, Sale_Price)] over the batch. *)
Definition marginal_value (comp_sales : list processed_sale) : option fval :=
  match Scipy.linregress (map (fun s => Living_Area (row s)) comp_sales)
                         (map (fun s => Sale_Price (row s)) comp_sales) with
  | Some (slope_sf, _, _) => Some slope_sf
  | None => None
  end.

(** The script on a loaded table: the rows of [adjusted_sales.csv], or
    [None] when [linregress] raises. *)
Definition Adjustment_Analysis (cfg : config)
  (comp_sales : list processed_sale) : option (list adjusted_sale) :=
  match marginal_value comp_sales with
  | Some marginal_value_per_sf =>
      Some (map (adjust cfg marginal_value_per_sf) comp_sales)
  | None => None
  end.

End AdjustmentAnalysis.

(* ================================================================== *)
(** ** Adjustment_Analysis_.py, steps 2 to 4, on IEEE doubles *)
(* ================================================================== *)

(** The steps of the script that compute a row, with the cells as numpy has
    them: IEEE 754 binary64 numbers ([float64], Python's [float]), every
    operation rounded to the nearest double, ties to even.  Integer values
    (the subject's living area, a day difference, the constant [100]) enter
    the arithmetic converted to doubles, as numpy converts them; a column
    that pandas holds as integers is taken as the doubles of its values,
    which changes no result below 2^53.  The slope of [linregress] is a
    parameter of the row, as in [adjust] above. *)
Module Binary64.

Import PrimFloat.
Local Open Scope float_scope.

(** An integer as a double: exact below 2^53 in magnitude, rounded to the
    nearest double below 2^63. *)
Definition of_int (z : Z) : float :=
  if (z <? 0)%Z then - of_uint63 (Uint63.of_Z (- z))
  else of_uint63 (Uint63.of_Z z).

(** [x > y]: false when either side is NaN. *)
Definition gtb (x y : float) : bool := ltb y x.

(** The double [-0.0]. *)
Definition negative_zero (x : float) : bool :=
  match FloatOps.Prim2SF x with
  | SpecFloat.S754_zero true => true
  | _ => false
  end.

(** The values read back from [validation_info.json]. *)
Record config : Type := {
  SUBJECT_LIVING_AREA : Z;
  DATE_OF_VALUE : Timestamp;
  TIME_THRESHOLD_DAYS : Z;
  SF_THRESHOLD_PCT : float;
  monthly_trend_pct : float;
  daily_price_change : float
}.

(** The columns of a row of [sales_data_processed.csv] that steps 2 to 4
    read. *)
Record comparable : Type := {
  Sale_Price : float;
  Sale_Date : option Timestamp;
  Living_Area : float
}.

(** The columns the script adds to the row. *)
Record adjusted_sale : Type := {
  comp : comparable;
  Days_Difference : option Z;
  Time_Adj_Amount : float;
  Time_Adj_Pct : float;
  SF_Difference : float;
  SF_Difference_Pct : float;
  SF_Adj_Amount : float;
  SF_Adj_Pct : float;
  Net_Adj_Amount : float;
  Net_Adj_Pct : float;
  Adjusted_Sale_Price : float;
  Adjusted_Price_Per_SF : float
}.

(** Step 2, one pass of the loop. *)
Definition time_adjustment (cfg : config) (days_diff : option Z)
  : float * float :=
  match days_diff with
  | Some d =>
      if (Z.abs d >? TIME_THRESHOLD_DAYS cfg)%Z then
        (daily_price_change cfg * of_int d,
         (monthly_trend_pct cfg / 30.44) * of_int d)
      else (0, 0)
  | None => (0, 0)
  end.

Definition sf_difference (cfg : config) (living_area : float) : float :=
  living_area - of_int (SUBJECT_LIVING_AREA cfg).

Definition sf_difference_pct (cfg : config) (living_area : float) : float :=
  (sf_difference cfg living_area / of_int (SUBJECT_LIVING_AREA cfg)) * 100.

(** Step 3, one pass of the loop. *)
Definition sf_adjustment (cfg : config) (marginal_value_per_sf : float)
  (living_area : float) : float * float :=
  let sf_diff_pct := abs (sf_difference_pct cfg living_area) in
  if gtb sf_diff_pct (SF_THRESHOLD_PCT cfg) then
    let sf_diff := sf_difference cfg living_area in
    (- sf_diff * marginal_value_per_sf,
     - (sf_diff / of_int (SUBJECT_LIVING_AREA cfg)) * 100)
  else (0, 0).

(** Steps 2 to 4 for one comparable. *)
Definition adjust (cfg : config) (marginal_value_per_sf : float)
  (s : comparable) : adjusted_sale :=
  let days_diff := dt_days (DATE_OF_VALUE cfg) (Sale_Date s) in
  let '(time_amount, time_pct) := time_adjustment cfg days_diff in
  let living := Living_Area s in
  let '(sf_amount, sf_pct) := sf_adjustment cfg marginal_value_per_sf living in
  let net_amount := time_amount + sf_amount in
  let adjusted := Sale_Price s + net_amount in
  {| comp := s;
     Days_Difference := days_diff;
     Time_Adj_Amount := time_amount;
     Time_Adj_Pct := time_pct;
     SF_Difference := sf_difference cfg living;
     SF_Difference_Pct := sf_difference_pct cfg living;
     SF_Adj_Amount := sf_amount;
     SF_Adj_Pct := sf_pct;
     Net_Adj_Amount := net_amount;
     Net_Adj_Pct := time_pct + sf_pct;
     Adjusted_Sale_Price := adjusted;
     Adjusted_Price_Per_SF := adjusted / living |}.

(** The rows of [adjusted_sales.csv], given the slope [linregress]
    returned. *)
Definition adjusted_sales (cfg : config) (marginal_value_per_sf : float)
  (comp_sales : list comparable) : list adjusted_sale :=
  map (adjust cfg marginal_value_per_sf) comp_sales.

(** The sum the specification words, taken left to right. *)
Definition stated_adjusted_price (a : adjusted_sale) : float :=
  (Sale_Price (comp a) + Time_Adj_Amount a) + SF_Adj_Amount a.

(** A subject of [subject] square feet, thresholds of 30 days and
    [sf_threshold] percent, a trend of 0.01 a day. *)
Definition sample_config (subject : Z) (sf_threshold : float) : config :=
  {| SUBJECT_LIVING_AREA := subject;
     DATE_OF_VALUE := (19723 * ticks_per_day)%Z;
     TIME_THRESHOLD_DAYS := 30;
     SF_THRESHOLD_PCT := sf_threshold;
     monthly_trend_pct := 0.1;
     daily_price_change := 0.01 |}.

(** A sale closed [days_before] days before 2024-01-01, at midnight. *)
Definition sample_sale (price : float) (days_before : Z) (area : float)
  : comparable :=
  {| Sale_Price := price;
     Sale_Date := Some ((19723 - days_before) * ticks_per_day)%Z;
     Living_Area := area |}.

(** A sale of 270000 closed 60 days before the date of value, of 2000 square
    feet against a subject of 1800, at a marginal value of 100. *)
Definition rounded_row : adjusted_sale :=
  adjust (sample_config 1800 5) 100 (sample_sale 270000 60 2000).

End Binary64.

(* ================================================================== *)
(** ** Vocabulary of the properties *)
(* ================================================================== *)

Module Reading.

Import MarketAnalysis.

(** The ladder entry a recorded period stands for. *)
Definition valid_entry (p : Valid.t) : string * Z :=
  (Valid.name p, Valid.months p).

Definition omitted_entry (p : Omitted.t) : string * Z :=
  (Omitted.name p, Omitted.months p).

(** The elements of [l] at the positions where [mask] is [true]. *)
Fixpoint select {A : Type} (mask : list bool) (l : list A) : list A :=
  match mask, l with
  | b :: mask', x :: l' =>
      if b then x :: select mask' l' else select mask' l'
  | _, _ => []
  end.

(** The cutoff as the specification words it, [date_of_value - months *
    30.44 days], the product not being cut to whole days: 30.44 days are
    2 630 016 000 000 microseconds. *)
Definition stated_cutoff (dov : Timestamp) (period_months : Z) : Timestamp :=
  (dov - period_months * 3044 * ticks_per_day / 100)%Z.

(** The rows of a table whose date cell did not parse. *)
Definition unparseable (df : list sale) : list sale :=
  filter (fun s => match Sale_Date s with None => true | Some _ => false end)
         df.

Definition parseable (df : list sale) : list sale :=
  filter (fun s => match Sale_Date s with None => false | Some _ => true end)
         df.

(** The two entries that a pass of the validation loop can append for a
    ladder entry. *)
Definition omitted_record (dov : Timestamp) (df : list processed_sale)
  (period_name : string) (period_months : Z) (why : string) : Omitted.t :=
  {| Omitted.name := period_name;
     Omitted.months := period_months;
     Omitted.reason := why;
     Omitted.sales_count := count_since df (cutoff dov period_months) |}.

Definition valid_record (dov : Timestamp) (df : list processed_sale)
  (period_name : string) (period_months : Z) : Valid.t :=
  {| Valid.name := period_name;
     Valid.months := period_months;
     Valid.sales_count := count_since df (cutoff dov period_months);
     Valid.cutoff_date := cutoff dov period_months;
     Valid.status := "valid" |}.

(** The two reasons the loop gives. *)
Definition beyond_coverage_reason (cov : fval) : string :=
  ("extends beyond data coverage (" ++ fmt_1f cov ++ " months)")%string.

Definition duplicate_reason (prev : Valid.t) (n : nat) : string :=
  ("identical sales count to " ++ Valid.name prev ++ " (n=" ++ str_nat n
   ++ ")")%string.

(** An omitted entry is well formed when its reason is not empty and its
    count is the count of its window. *)
Definition well_formed_omitted (dov : Timestamp) (df : list processed_sale)
  (o : Omitted.t) : Prop :=
  Omitted.reason o <> ""%string
  /\ Omitted.sales_count o = count_since df (cutoff dov (Omitted.months o)).

(** The order [sort_values] sorts by. *)
Definition date_le (a b : processed_sale) : Prop :=
  date_leb (date_of a) (date_of b) = true.

(** A row that passes the date filter, once derived. *)
Definition retained (dov : Timestamp) (p : processed_sale) : Prop :=
  exists t,
    date_of p = Some t
    /\ (t <= dov)%Z
    /\ Price_Per_SF p = fdiv (Sale_Price (row p)) (Living_Area (row p))
    /\ Days_From_DOV p = Some (days (dov - t)).

(** The table written by the script, in either branch. *)
Definition processed (dov : Timestamp) (df : list sale) : list processed_sale :=
  sort_values (map (derive dov) (filter_on_or_before dov df)).

(** The dates of a table of retained rows, as timestamps. *)
Definition dates_of (l : list processed_sale) : list Timestamp :=
  map (fun p => match date_of p with Some t => t | None => 0%Z end) l.

(** What a run printed, however it ended. *)
Definition stdout_of (o : outcome) : list log_line :=
  match o with
  | Exit _ out _ => out
  | Raised out => out
  end.

(** The processed table a run wrote: empty when it wrote none. *)
Definition written_table (o : outcome) : list processed_sale :=
  match o with
  | Exit _ _ (Some f) => sales_data_processed_csv f
  | _ => []
  end.

End Reading.

(* ================================================================== *)
(** ** Sample data *)
(* ================================================================== *)

Module Sample.

Import MarketAnalysis.
Local Open Scope string_scope.

(** Midnight of the [n]-th day after 1970-01-01. *)
Definition midnight (n : Z) : Timestamp := (n * ticks_per_day)%Z.

(** 2024-01-01. *)
Definition dov : Timestamp := midnight 19723.

(** A sale closed [days_before] days before 2024-01-01, at midnight. *)
Definition sold (price days_before area : Z) (street : string) : sale :=
  {| Sale_Price := of_Z price;
     Sale_Date := Some (midnight (19723 - days_before));
     Living_Area := of_Z area;
     Street_Number := "1";
     Street_Name := street |}.

(** A row whose date cell did not parse. *)
Definition undated (price area : Z) (street : string) : sale :=
  {| Sale_Price := of_Z price;
     Sale_Date := None;
     Living_Area := of_Z area;
     Street_Number := "1";
     Street_Name := street |}.

Definition form : form_data :=
  {| address := Some "12 Elm Street";
     living_area := Some 1000%Z;
     bedrooms_total := Some 3%Z;
     bathrooms_total := Some 2%Q;
     DATE_OF_VALUE := dov;
     TIME_ADJUSTMENT_THRESHOLD_DAYS := 30;
     LIVING_AREA_ADJUSTMENT_THRESHOLD_PCT := fin 5 |}.

Definition all_columns : list string :=
  ["Close Price"; "Close Date"; "Living Area"; "Beds"; "Baths";
   "Street Number"; "Street Name"; "DOM"; "CDOM"; "Garage Spaces"].

Definition three_columns : list string :=
  ["Close Price"; "Close Date"; "Living Area"].

Definition cfg : AdjustmentAnalysis.config :=
  {| AdjustmentAnalysis.SUBJECT_LIVING_AREA := 1000;
     AdjustmentAnalysis.DATE_OF_VALUE := dov;
     AdjustmentAnalysis.TIME_THRESHOLD_DAYS := 30;
     AdjustmentAnalysis.SF_THRESHOLD_PCT := fin 5;
     AdjustmentAnalysis.monthly_trend_pct := fin 0.5;
     AdjustmentAnalysis.daily_price_change := fin 50 |}.

(** Sales 5, 30 and 60 days before the date of value. *)
Definition comps : list processed_sale :=
  map (derive dov)
      [sold 330000 60 1200 "Oak"; sold 300000 30 1000 "Ash";
       sold 310000 5 1020 "Fir"].

(** Sales 10, 200 and 250 days before the date of value, as processed. *)
Definition spread_table : list processed_sale :=
  sort_values
    (map (derive dov)
         [sold 300000 10 1000 "Ash"; sold 310000 200 1100 "Elm";
          sold 290000 250 900 "Oak"]).

(** A sale closed 91 days and 6 hours before the date of value. *)
Definition sold_at_18h : sale :=
  {| Sale_Price := of_Z 305000;
     Sale_Date := Some (midnight (19723 - 91) - ticks_per_day / 4)%Z;
     Living_Area := of_Z 1000;
     Street_Number := "7";
     Street_Name := "Yew" |}.

Definition intraday_table : list processed_sale :=
  sort_values (map (derive dov) [sold 300000 10 1000 "Ash"; sold_at_18h]).

(** A loaded table: three sales before the date of value, one a month
    after it, and a row whose date did not parse. *)
Definition dated_rows : list sale :=
  [sold 300000 23 1000 "Ash"; sold 310000 123 1100 "Elm";
   sold 320000 (-30) 1000 "Gum"; sold 290000 223 900 "Oak"].

Definition raw_table : list sale :=
  undated 250000 950 "Bay" :: dated_rows.

(** A table with nothing on or before the date of value. *)
Definition late_table : list sale :=
  [sold 320000 (-30) 1000 "Gum"; undated 250000 950 "Bay"].


(** A batch with a comparable of living area zero. *)
Definition zero_area_comps : list processed_sale :=
  map (derive dov)
      [sold 100000 60 0 "Nil"; sold 200000 40 1000 "Ash";
       sold 300000 20 2000 "Elm"].

End Sample.

(* ================================================================== *)
(** ** Market_Analysis.py: the form dictionary and the CSV path *)
(* ================================================================== *)

Module FormInput.

Local Open Scope string_scope.

(** A value of the form's JSON object. *)
Inductive value : Type :=
| Str (s : string)
| Num (q : Q)
| Bool (b : bool)
| Null.

(** The object [json.load] returns: keys in insertion order. *)
Definition dict : Type := list (string * value).

(** [d.get(k)]. *)
Fixpoint get (d : dict) (k : string) : option value :=
  match d with
  | [] => None
  | (k', v) :: rest => if String.eqb k k' then Some v else get rest k
  end.

(** [k in d]. *)
Definition has (d : dict) (k : string) : bool :=
  match get d k with Some _ => true | None => false end.

(** [d[k] = v]: the value is replaced in place, or the key is appended. *)
Fixpoint set (d : dict) (k : string) (v : value) : dict :=
  match d with
  | [] => [(k, v)]
  | (k', v') :: rest =>
      if String.eqb k k' then (k, v) :: rest else (k', v') :: set rest k v
  end.

Definition alt_key_map : list (string * string) :=
  [("subject_gla", "living_area");
   ("subject_living_area", "living_area");
   ("subject_livingarea", "living_area");
   ("subject_bedrooms", "bedrooms_total");
   ("subject_beds", "bedrooms_total");
   ("subject_bathrooms", "bathrooms_total");
   ("subject_baths", "bathrooms_total");
   ("subject_garage", "garage_spaces");
   ("subject_address", "address");
   ("subject_city", "filter_city");
   ("subject_state", "filter_state");
   ("subject_zip", "filter_zip");
   ("adjustment_threshold", "sf_threshold_percent");
   ("time_threshold", "time_threshold_days");
   ("csv_path", "csv_path")].

(** One pass of the loop over [alt_key_map.items()]. *)
Definition normalize_key (d : dict) (entry : string * string) : dict :=
  let '(alt, canon) := entry in
  match get d alt with
  | Some v => if has d canon then d else set d canon v
  | None => d
  end.

(** The loop over any table of alternate keys, and over [alt_key_map]. *)
Definition normalize_with (table : list (string * string)) (d : dict) : dict :=
  fold_left normalize_key table d.

Definition normalize (d : dict) : dict := normalize_with alt_key_map d.

(** Truth value of a string: it is not empty. *)
Definition nonempty (s : string) : bool :=
  match s with EmptyString => false | String _ _ => true end.

(** The loop over the keys that may hold the path: the stripped value of
    the first key whose value is a string that is not blank. *)
Fixpoint first_path (d : dict) (keys : list string) : option string :=
  match keys with
  | [] => None
  | key :: rest =>
      match get d key with
      | Some (Str val) =>
          if nonempty (strip val) then Some (strip val) else first_path d rest
      | _ => first_path d rest
      end
  end.

Definition path_keys : list string :=
  ["csv_path"; "csv"; "sales_csv"; "data_file"].

(** The path of the sales CSV: the command-line argument, else a key of
    the form, else the file chosen in the dialog when the dialog is allowed
    ([chosen] is [None] when it fails or is dismissed).  [None] stands for
    [sys.exit(2)]. *)
Definition resolve_csv_path (arg : option string) (d : dict)
  (allow_gui_picker : bool) (chosen : option string) : option string :=
  let from_arg :=
    match arg with
    | Some a => if nonempty a then strip a else ""
    | None => ""
    end in
  let from_form :=
    if nonempty from_arg then from_arg
    else match first_path d path_keys with
         | Some p => p
         | None => from_arg
         end in
  let from_dialog :=
    if negb (nonempty from_form) && allow_gui_picker then
      match chosen with
      | Some c => if nonempty c then c else from_form
      | None => from_form
      end
    else from_form in
  if nonempty from_dialog then Some from_dialog else None.

End FormInput.

(* ================================================================== *)
(** ** Market_Analysis.py, step 3: statistics of the valid periods *)
(* ================================================================== *)

Module PeriodStatistics.

Import MarketAnalysis.

(** A row of [statistics_summary.csv]: the period, its sale count, the
    absorption rate and the two means.  The medians, the standard
    deviations and the days-on-market columns are left out. *)
Record t : Type := {
  Period : string;
  Months : Z;
  N_Sales : nat;
  Absorption_Rate : fval;
  Price_Mean : fval;
  PriceSF_Mean : fval
}.

(** One pass of the loop over [valid_periods]: [None] where the loop
    continues without a row. *)
Definition period_row (df : list processed_sale) (period : Valid.t)
  : option t :=
  let period_df :=
    filter (fun s => on_or_after (date_of s) (Valid.cutoff_date period)) df in
  let n := List.length period_df in
  if (n =? 0)%nat then None
  else
    Some {| Period := Valid.name period;
            Months := Valid.months period;
            N_Sales := n;
            Absorption_Rate :=
              fdiv (of_Z (Z.of_nat n)) (of_Z (Valid.months period));
            Price_Mean :=
              series_mean (map (fun s => Sale_Price (row s)) period_df);
            PriceSF_Mean := series_mean (map Price_Per_SF period_df) |}.

Fixpoint statistics (df : list processed_sale) (valid : list Valid.t)
  : list t :=
  match valid with
  | [] => []
  | period :: rest =>
      match period_row df period with
      | Some r => r :: statistics df rest
      | None => statistics df rest
      end
  end.

End PeriodStatistics.

(* ================================================================== *)
(** ** Adjustment_Analysis_.py: configuration and summary counts *)
(* ================================================================== *)

Module AdjustmentScript.

Import MarketAnalysis AdjustmentAnalysis.

Local Open Scope string_scope.

(** The configuration read from [validation_info.json], or the key whose
    lookup raises [KeyError]. *)
Definition load_config (vi : validation_info) : config + string :=
  match vi_thresholds vi with
  | None => inr "thresholds"
  | Some (time_adjustment_days, sf_adjustment_pct) =>
      match vi_trend_results vi with
      | None => inr "trend_results"
      | Some trend_results =>
          inl {| SUBJECT_LIVING_AREA := vi_subject_living_area vi;
                 DATE_OF_VALUE := vi_date_of_value vi;
                 TIME_THRESHOLD_DAYS := time_adjustment_days;
                 SF_THRESHOLD_PCT := sf_adjustment_pct;
                 monthly_trend_pct :=
                   TrendResults.monthly_price_change_pct trend_results;
                 daily_price_change :=
                   TrendResults.daily_price_change trend_results |}
      end
  end.

(** [x != 0] on a cell: true on NaN. *)
Definition nonzero (x : fval) : bool := negb (feqb x (fin 0)).

(** The [adjustment_counts] entry of [adjustment_summary.json]. *)
Record adjustment_counts : Type := {
  time_only : Z;
  sf_only : Z;
  both : Z;
  none : Z
}.

Definition count_rows (f : adjusted_sale -> bool)
  (comp_sales : list adjusted_sale) : Z :=
  Z.of_nat (List.length (filter f comp_sales)).

(** Step 6: the counts by kind of adjustment. *)
Definition count_adjustments (comp_sales : list adjusted_sale)
  : adjustment_counts :=
  let time_adj_count :=
    count_rows (fun a => nonzero (Time_Adj_Amount a)) comp_sales in
  let sf_adj_count :=
    count_rows (fun a => nonzero (SF_Adj_Amount a)) comp_sales in
  let both_adj_count :=
    count_rows (fun a => nonzero (Time_Adj_Amount a)
                         && nonzero (SF_Adj_Amount a)) comp_sales in
  let no_adj_count :=
    count_rows (fun a => feqb (Time_Adj_Amount a) (fin 0)
                         && feqb (SF_Adj_Amount a) (fin 0)) comp_sales in
  {| time_only := time_adj_count - both_adj_count;
     sf_only := sf_adj_count - both_adj_count;
     both := both_adj_count;
     none := no_adj_count |}.

(** How a run of the script ends. *)
Inductive result : Type :=
| Done (adjusted_sales : list adjusted_sale) (counts : adjustment_counts)
| KeyError (key : string)
| ValueError.

(** The script on the two files written by the market analysis. *)
Definition run (vi : validation_info) (df : list processed_sale) : result :=
  match load_config vi with
  | inr key => KeyError key
  | inl cfg =>
      match Adjustment_Analysis cfg df with
      | None => ValueError
      | Some comp_sales => Done comp_sales (count_adjustments comp_sales)
      end
  end.

End AdjustmentScript.

(* ================================================================== *)
(** ** Further vocabulary of the properties *)
(* ================================================================== *)

Module Closed.

Import MarketAnalysis Reading.

(** A ladder entry passes the coverage check. *)
Definition within_coverage (cov : fval) (period_months : Z) : bool :=
  negb (fgtb (of_Z period_months) (fadd cov (of_Z buffer_months))).

(** The accepted periods without the loop's state: an entry is kept when it
    passes the coverage check and its count differs from the count of the
    entry before it that passed the check ([prev], [None] when there is
    none). *)
Fixpoint accepted_after (dov : Timestamp) (df : list processed_sale)
  (cov : fval) (prev : option nat) (ladder : list (string * Z))
  : list Valid.t :=
  match ladder with
  | [] => []
  | (period_name, period_months) :: rest =>
      if within_coverage cov period_months then
        let n := count_since df (cutoff dov period_months) in
        let keep :=
          match prev with
          | Some c => negb (n =? c)%nat
          | None => true
          end in
        (if keep then [valid_record dov df period_name period_months] else [])
        ++ accepted_after dov df cov (Some n) rest
      else accepted_after dov df cov prev rest
  end.

(** The count of the last entry of a ladder that passes the coverage check,
    [prev] when none does. *)
Definition last_within (dov : Timestamp) (df : list processed_sale)
  (cov : fval) (prev : option nat) (ladder : list (string * Z)) : option nat :=
  fold_left (fun acc entry =>
               if within_coverage cov (snd entry)
               then Some (count_since df (cutoff dov (snd entry)))
               else acc)
            ladder prev.

(** No two neighbours of a list are equal. *)
Fixpoint no_adjacent_repeat (l : list nat) : Prop :=
  match l with
  | x :: ((y :: _) as rest) => x <> y /\ no_adjacent_repeat rest
  | _ => True
  end.

(** The value of the first entry of a table of alternate keys that targets
    [canon] and whose alternate key is in the dictionary. *)
Fixpoint first_alias (table : list (string * string)) (d : FormInput.dict)
  (canon : string) : option FormInput.value :=
  match table with
  | [] => None
  | (alt, c) :: rest =>
      if String.eqb canon c then
        match FormInput.get d alt with
        | Some v => Some v
        | None => first_alias rest d canon
        end
      else first_alias rest d canon
  end.

(** No alternate key of a table is the target of an entry before it. *)
Fixpoint no_chain (table : list (string * string)) : bool :=
  match table with
  | [] => true
  | (_, c) :: rest =>
      forallb (fun entry => negb (String.eqb (fst entry) c)) rest
      && no_chain rest
  end.

(** The validation record a run wrote, if any. *)
Definition written_info (o : outcome) : option validation_info :=
  match o with
  | Exit _ _ (Some f) => Some (validation_info_json f)
  | _ => None
  end.

End Closed.

(* ================================================================== *)
(** ** Properties *)
(* ================================================================== *)

Import MarketAnalysis Reading.

(** *** Arithmetic on cells *)

Section FloatFacts.

Lemma fin_eq (a b : Q) : a == b -> fin a = fin b.
Proof.
  intro H. unfold fin. f_equal. now apply Qred_complete.
Qed.

Lemma fadd_fin (a b : Q) : fadd (fin a) (fin b) = fin (a + b).
Proof.
  unfold fadd, fin at 1 2. apply fin_eq. now rewrite !Qred_correct.
Qed.

Lemma fltb_fin (a b : Q) : fltb (fin a) (fin b) = true <-> a < b.
Proof.
  unfold fltb, fin. rewrite negb_true_iff, <- not_true_iff_false.
  rewrite Qle_bool_iff, !Qred_correct. split.
  - apply Qnot_le_lt.
  - apply Qlt_not_le.
Qed.

Lemma fltb_fin_false (a b : Q) : fltb (fin a) (fin b) = false <-> b <= a.
Proof.
  rewrite <- not_true_iff_false, fltb_fin. split.
  - apply Qnot_lt_le.
  - apply Qle_not_lt.
Qed.

Lemma fgtb_fin (a b : Q) : fgtb (fin a) (fin b) = true <-> b < a.
Proof. unfold fgtb. apply fltb_fin. Qed.

Lemma fgtb_fin_false (a b : Q) : fgtb (fin a) (fin b) = false <-> a <= b.
Proof. unfold fgtb. apply fltb_fin_false. Qed.

End FloatFacts.

(** *** The adjustment engine *)

Section Adjustments.

Import AdjustmentAnalysis.

Variable cfg : config.

Lemma adjust_comp (m : fval) (s : processed_sale) : comp (adjust cfg m s) = s.
Proof.
  unfold adjust.
  destruct (time_adjustment cfg _) as [ta tp].
  destruct (sf_adjustment cfg m _) as [sa sp].
  reflexivity.
Qed.

Lemma adjust_time (m : fval) (s : processed_sale) :
  Days_Difference (adjust cfg m s) = dt_days (DATE_OF_VALUE cfg) (date_of s)
  /\ (Time_Adj_Amount (adjust cfg m s), Time_Adj_Pct (adjust cfg m s))
     = time_adjustment cfg (dt_days (DATE_OF_VALUE cfg) (date_of s)).
Proof.
  unfold adjust.
  destruct (time_adjustment cfg _) as [ta tp].
  destruct (sf_adjustment cfg m _) as [sa sp].
  simpl. split; reflexivity.
Qed.

Lemma adjust_sf (m : fval) (s : processed_sale) :
  (SF_Adj_Amount (adjust cfg m s), SF_Adj_Pct (adjust cfg m s))
  = sf_adjustment cfg m (Living_Area (row s))
  /\ Adjusted_Price_Per_SF (adjust cfg m s)
     = fdiv (Adjusted_Sale_Price (adjust cfg m s)) (Living_Area (row s)).
Proof.
  unfold adjust.
  destruct (time_adjustment cfg _) as [ta tp].
  destruct (sf_adjustment cfg m _) as [sa sp].
  simpl. split; reflexivity.
Qed.

Lemma adjust_sf_difference (m : fval) (s : processed_sale) :
  SF_Difference (adjust cfg m s) = sf_difference cfg (Living_Area (row s))
  /\ SF_Difference_Pct (adjust cfg m s)
     = sf_difference_pct cfg (Living_Area (row s)).
Proof.
  unfold adjust.
  destruct (time_adjustment cfg _) as [ta tp].
  destruct (sf_adjustment cfg m _) as [sa sp].
  split; reflexivity.
Qed.


End Adjustments.

Section AdjustmentClaims.

Import PrimFloat Binary64.
Local Open Scope float_scope.

(** C1.  On doubles, every row of the adjustment table carries a net
    adjustment that is the sum of its time and living-area adjustments, and
    an adjusted price that is the sale price plus that net adjustment, that
    is [sale + (time + size)] with the two additions rounded and no other
    rounding step; the adjusted price per square foot is that adjusted
    price over the living area.  There is one such row per comparable. *)
Theorem adjusted_price_is_sale_price_plus_net_adjustment (cfg : config)
  (m : float) (comp_sales : list comparable) :
  let out := adjusted_sales cfg m comp_sales in
  map comp out = comp_sales
  /\ Forall (fun a =>
       Net_Adj_Amount a = Time_Adj_Amount a + SF_Adj_Amount a
       /\ Adjusted_Sale_Price a = Sale_Price (comp a) + Net_Adj_Amount a
       /\ Adjusted_Sale_Price a
          = Sale_Price (comp a) + (Time_Adj_Amount a + SF_Adj_Amount a)
       /\ Adjusted_Price_Per_SF a
          = Adjusted_Sale_Price a / Living_Area (comp a)) out.
Proof.
  intro out. unfold out, adjusted_sales.
  assert (Hrow : forall s,
             let a := adjust cfg m s in
             comp a = s
             /\ Net_Adj_Amount a = Time_Adj_Amount a + SF_Adj_Amount a
             /\ Adjusted_Sale_Price a = Sale_Price s + Net_Adj_Amount a
             /\ Adjusted_Price_Per_SF a
                = Adjusted_Sale_Price a / Living_Area s).
  { intro s. unfold adjust.
    destruct (time_adjustment cfg _) as [ta tp].
    destruct (sf_adjustment cfg m _) as [sa sp].
    cbn. repeat split. }
  split.
  - rewrite map_map. rewrite <- (map_id comp_sales) at 2.
    apply map_ext. intro s. apply (Hrow s).
  - apply Forall_forall. intros a Ha.
    apply in_map_iff in Ha as (s & <- & _).
    destruct (Hrow s) as (Hcomp & Hnet & Hadj & Hpsf).
    rewrite Hcomp. split; [exact Hnet|]. split; [exact Hadj|].
    split; [now rewrite Hadj, Hnet|exact Hpsf].
Qed.

(** A sale of 270000 closed 60 days before the date of value, of 2000
    square feet against a subject of 1800, with a trend of 0.01 a day and a
    marginal value of 100: the time adjustment is 0.6 and the size
    adjustment -20000.  The script writes 250000.6; the sum taken left to
    right is 250000.59999999998. *)
Lemma left_to_right_sum_differs_in_the_last_bit :
  Time_Adj_Amount rounded_row = 0.6
  /\ SF_Adj_Amount rounded_row = -20000
  /\ Adjusted_Sale_Price rounded_row = 250000.6
  /\ stated_adjusted_price rounded_row = 250000.59999999998
  /\ Adjusted_Sale_Price rounded_row <> stated_adjusted_price rounded_row.
Proof.
  repeat (split; [vm_compute; reflexivity|]).
  intro H.
  assert (E : eqb (Adjusted_Sale_Price rounded_row)
                  (stated_adjusted_price rounded_row) = false)
    by (vm_compute; reflexivity).
  rewrite <- H in E. vm_compute in E. discriminate.
Qed.

End AdjustmentClaims.

Section TimeAdjustmentClaim.

Import AdjustmentAnalysis.

Lemma time_adjustment_above (cfg : config) (d : Z) :
  (Z.abs d > TIME_THRESHOLD_DAYS cfg)%Z ->
  time_adjustment cfg (Some d)
  = (fmul (daily_price_change cfg) (of_Z d),
     fmul (fdiv (monthly_trend_pct cfg) (fin 30.44)) (of_Z d)).
Proof.
  intro H. unfold time_adjustment.
  destruct (Z.gtb_spec (Z.abs d) (TIME_THRESHOLD_DAYS cfg)); [reflexivity|lia].
Qed.

Lemma time_adjustment_within (cfg : config) (d : Z) :
  (Z.abs d <= TIME_THRESHOLD_DAYS cfg)%Z ->
  time_adjustment cfg (Some d) = (fin 0, fin 0).
Proof.
  intro H. unfold time_adjustment.
  destruct (Z.gtb_spec (Z.abs d) (TIME_THRESHOLD_DAYS cfg)); [lia|reflexivity].
Qed.

(** C2.  For a comparable with sale date [t], the day difference is the
    whole number of days from [t] to the date of value.  When its absolute
    value strictly exceeds the threshold the time adjustment is applied,
    with amount [daily_change * days_diff] and percentage
    [(monthly_change_pct / 30.44) * days_diff]; otherwise, and in particular
    when the absolute value equals the threshold, both are zero. *)
Theorem time_adjustment_iff_beyond_threshold (cfg : config) (m : fval)
  (s : processed_sale) (t : Timestamp) :
  Sale_Date (row s) = Some t ->
  let d := days (DATE_OF_VALUE cfg - t) in
  let a := adjust cfg m s in
  Days_Difference a = Some d
  /\ ((Z.abs d > TIME_THRESHOLD_DAYS cfg)%Z ->
      Time_Adj_Amount a = fmul (daily_price_change cfg) (of_Z d)
      /\ Time_Adj_Pct a
         = fmul (fdiv (monthly_trend_pct cfg) (fin 30.44)) (of_Z d))
  /\ ((Z.abs d <= TIME_THRESHOLD_DAYS cfg)%Z ->
      Time_Adj_Amount a = fin 0 /\ Time_Adj_Pct a = fin 0)
  /\ ((Z.abs d = TIME_THRESHOLD_DAYS cfg)%Z ->
      Time_Adj_Amount a = fin 0 /\ Time_Adj_Pct a = fin 0).
Proof.
  intros Ht d a.
  destruct (adjust_time cfg m s) as [Hd Hpair].
  assert (E : dt_days (DATE_OF_VALUE cfg) (date_of s) = Some d)
    by (unfold date_of; rewrite Ht; reflexivity).
  rewrite E in Hd, Hpair. fold a in Hd, Hpair.
  split; [exact Hd|].
  split; [|split].
  - intro Habs. rewrite (time_adjustment_above cfg d Habs) in Hpair.
    now inversion Hpair.
  - intro Habs. rewrite (time_adjustment_within cfg d Habs) in Hpair.
    now inversion Hpair.
  - intro Habs. rewrite (time_adjustment_within cfg d) in Hpair by lia.
    now inversion Hpair.
Qed.

(** The scenario of a sale 60 days before 2024-01-01 under a 30-day
    threshold, a daily change of 50 and a monthly change of 0.5 percent. *)
Lemma time_adjustment_iff_beyond_threshold_witness :
  let s := derive Sample.dov (Sample.sold 330000 60 1200 "Oak") in
  let a := adjust Sample.cfg (fin 100) s in
  Days_Difference a = Some 60%Z
  /\ Time_Adj_Amount a = fin 3000
  /\ Time_Adj_Pct a = fmul (fdiv (fin 0.5) (fin 30.44)) (of_Z 60).
Proof.
  intros s a.
  destruct (time_adjustment_iff_beyond_threshold Sample.cfg (fin 100) s
              (Sample.midnight (19723 - 60)) eq_refl)
    as (Hd & Habove & _ & _).
  split; [exact Hd|].
  apply Habove. vm_compute. reflexivity.
Defined.

End TimeAdjustmentClaim.

Section TrendClassification.

(** The constants of the rule, as fractions. *)
Lemma half_is : 0.50 == 1 # 2.
Proof. reflexivity. Qed.

Lemma minus_half_is : -0.50 == - (1 # 2).
Proof. reflexivity. Qed.

Lemma above_half (d : Q) : fgtb (fin d) (fin 0.50) = true <-> 1 # 2 < d.
Proof. rewrite fgtb_fin, half_is. reflexivity. Qed.

Lemma not_above_half (d : Q) : fgtb (fin d) (fin 0.50) = false <-> d <= 1 # 2.
Proof. rewrite fgtb_fin_false, half_is. reflexivity. Qed.

Lemma below_minus_half (d : Q) :
  fltb (fin d) (fin (-0.50)) = true <-> d < - (1 # 2).
Proof. rewrite fltb_fin, minus_half_is. reflexivity. Qed.

Lemma not_below_minus_half (d : Q) :
  fltb (fin d) (fin (-0.50)) = false <-> - (1 # 2) <= d.
Proof. rewrite fltb_fin_false, minus_half_is. reflexivity. Qed.

Lemma below_three_tenths (r2 : Q) :
  fltb (fin r2) (fin 0.3) = true <-> r2 < 3 # 10.
Proof. apply fltb_fin. Qed.

Lemma not_below_three_tenths (r2 : Q) :
  fltb (fin r2) (fin 0.3) = false <-> 3 # 10 <= r2.
Proof. apply fltb_fin_false. Qed.

Lemma classify_increasing (d r2 : Q) :
  1 # 2 < d -> classify_market_trend (fin d) (fin r2) = "INCREASING"%string.
Proof.
  intro H. unfold classify_market_trend.
  now rewrite (proj2 (above_half d) H).
Qed.

Lemma classify_decreasing (d r2 : Q) :
  d < - (1 # 2) -> classify_market_trend (fin d) (fin r2) = "DECREASING"%string.
Proof.
  intro H. unfold classify_market_trend.
  assert (E1 : fgtb (fin d) (fin 0.50) = false).
  { apply not_above_half. apply Qlt_le_weak.
    apply Qlt_trans with (- (1 # 2)); [exact H|reflexivity]. }
  now rewrite E1, (proj2 (below_minus_half d) H).
Qed.

Lemma classify_by_r_squared (d r2 : Q) :
  - (1 # 2) <= d -> d <= 1 # 2 ->
  classify_market_trend (fin d) (fin r2)
  = if fltb (fin r2) (fin 0.3) then "UNSTABLE"%string else "STABLE"%string.
Proof.
  intros Hlo Hhi. unfold classify_market_trend.
  now rewrite (proj2 (not_above_half d) Hhi),
              (proj2 (not_below_minus_half d) Hlo).
Qed.

(** C4.  The market trend is decided by the first rule that matches, in the
    order: daily change above 0.50 gives INCREASING; else daily change below
    -0.50 gives DECREASING; else R-squared below 0.30 gives UNSTABLE; else
    STABLE.  So a daily change above 0.50 with R-squared below 0.30 is
    INCREASING, not UNSTABLE.  The trend step labels every fit of two or
    more sales by this rule. *)
Theorem market_trend_first_match_wins :
  (forall d r2 : Q,
      (1 # 2 < d ->
       classify_market_trend (fin d) (fin r2) = "INCREASING"%string)
      /\ (d <= 1 # 2 -> d < - (1 # 2) ->
          classify_market_trend (fin d) (fin r2) = "DECREASING"%string)
      /\ (d <= 1 # 2 -> - (1 # 2) <= d -> r2 < 3 # 10 ->
          classify_market_trend (fin d) (fin r2) = "UNSTABLE"%string)
      /\ (d <= 1 # 2 -> - (1 # 2) <= d -> 3 # 10 <= r2 ->
          classify_market_trend (fin d) (fin r2) = "STABLE"%string)
      /\ (1 # 2 < d -> r2 < 3 # 10 ->
          classify_market_trend (fin d) (fin r2) = "INCREASING"%string
          /\ classify_market_trend (fin d) (fin r2) <> "UNSTABLE"%string))
  /\ (forall trend_df t,
         trend_analysis trend_df = Some t ->
         (2 <= List.length trend_df)%nat ->
         market_trend t
         = classify_market_trend (daily_price_change t) (r_squared_price t)).
Proof.
  split.
  - intros d r2. repeat split.
    + apply classify_increasing.
    + intros _. apply classify_decreasing.
    + intros Hhi Hlo Hr. rewrite classify_by_r_squared by assumption.
      now rewrite (proj2 (below_three_tenths r2) Hr).
    + intros Hhi Hlo Hr. rewrite classify_by_r_squared by assumption.
      now rewrite (proj2 (not_below_three_tenths r2) Hr).
    + now apply classify_increasing.
    + rewrite classify_increasing by assumption. discriminate.
  - intros trend_df t H Hlen. unfold trend_analysis in H.
    apply Nat.leb_le in Hlen. rewrite Hlen in H.
    destruct (Scipy.linregress _ _) as [[[slope intercept] r2]|];
      [|discriminate].
    destruct (Scipy.linregress _ _) as [[[slope_sf intercept_sf] r2_sf]|];
      [|discriminate].
    injection H as <-. reflexivity.
Qed.

(** A daily change of 50 with an R-squared of one quarter. *)
Lemma market_trend_first_match_wins_witness :
  classify_market_trend (fin 50) (fin (1 # 4)) = "INCREASING"%string
  /\ classify_market_trend (fin 50) (fin (1 # 4)) <> "UNSTABLE"%string.
Proof.
  destruct market_trend_first_match_wins as [Hrule _].
  destruct (Hrule 50 (1 # 4)) as (_ & _ & _ & _ & Hnoisy).
  apply Hnoisy; reflexivity.
Defined.

End TrendClassification.

(** *** The period validator *)

Section PeriodValidator.

Local Open Scope string_scope.

Variable dov : Timestamp.
Variable df : list processed_sale.

Lemma validate_period_beyond (cov : fval) (st : validation)
  (period_name : string) (period_months : Z) :
  fgtb (of_Z period_months) (fadd cov (of_Z buffer_months)) = true ->
  validate_period dov df cov st (period_name, period_months)
  = omit st period_name period_months (beyond_coverage_reason cov)
         (count_since df (cutoff dov period_months)).
Proof.
  intro H. unfold validate_period. now rewrite H.
Qed.

Lemma validate_period_duplicate (cov : fval) (st : validation)
  (period_name : string) (period_months : Z) (prev : Valid.t) :
  fgtb (of_Z period_months) (fadd cov (of_Z buffer_months)) = false ->
  last_valid st = Some prev ->
  count_since df (cutoff dov period_months) = Valid.sales_count prev ->
  validate_period dov df cov st (period_name, period_months)
  = omit st period_name period_months
         (duplicate_reason prev (count_since df (cutoff dov period_months)))
         (count_since df (cutoff dov period_months)).
Proof.
  intros H Hlast Hn. unfold validate_period. rewrite H, Hlast.
  now rewrite (proj2 (Nat.eqb_eq _ _) Hn).
Qed.

Lemma validate_period_fresh (cov : fval) (st : validation)
  (period_name : string) (period_months : Z) :
  fgtb (of_Z period_months) (fadd cov (of_Z buffer_months)) = false ->
  (forall prev, last_valid st = Some prev ->
                count_since df (cutoff dov period_months)
                <> Valid.sales_count prev) ->
  validate_period dov df cov st (period_name, period_months)
  = include st period_name period_months
            (count_since df (cutoff dov period_months))
            (cutoff dov period_months).
Proof.
  intros H Hne. unfold validate_period. rewrite H.
  destruct (last_valid st) as [prev|]; [|reflexivity].
  now rewrite (proj2 (Nat.eqb_neq _ _) (Hne prev eq_refl)).
Qed.

(** Whatever the state, a pass appends exactly one entry, to one list. *)
Lemma validate_period_cases (cov : fval) (st : validation)
  (period_name : string) (period_months : Z) :
  (exists why,
      why <> ""
      /\ validate_period dov df cov st (period_name, period_months)
         = omit st period_name period_months why
                (count_since df (cutoff dov period_months)))
  \/ validate_period dov df cov st (period_name, period_months)
     = include st period_name period_months
               (count_since df (cutoff dov period_months))
               (cutoff dov period_months).
Proof.
  destruct (fgtb (of_Z period_months) (fadd cov (of_Z buffer_months))) eqn:H.
  - left. exists (beyond_coverage_reason cov). split; [discriminate|].
    now apply validate_period_beyond.
  - destruct (last_valid st) as [prev|] eqn:Hlast.
    + destruct (Nat.eq_dec (count_since df (cutoff dov period_months))
                           (Valid.sales_count prev)) as [E|E].
      * left. exists (duplicate_reason prev
                        (count_since df (cutoff dov period_months))).
        split; [discriminate|]. now apply validate_period_duplicate.
      * right. apply validate_period_fresh; [exact H|].
        intros p Hp. rewrite Hlast in Hp. now injection Hp as <-.
    + right. apply validate_period_fresh; [exact H|].
      intros p Hp. rewrite Hlast in Hp. discriminate.
Qed.

(** The loop splits any ladder, in order, between the two lists. *)
Lemma validate_splits_ladder (cov : fval) (ladder : list (string * Z)) :
  forall st : validation,
  exists mask : list bool,
    List.length mask = List.length ladder
    /\ map valid_entry
           (valid_periods (fold_left (validate_period dov df cov) ladder st))
       = (map valid_entry (valid_periods st) ++ select mask ladder)%list
    /\ map omitted_entry
           (omitted_periods (fold_left (validate_period dov df cov) ladder st))
       = (map omitted_entry (omitted_periods st)
          ++ select (map negb mask) ladder)%list
    /\ (Forall (well_formed_omitted dov df) (omitted_periods st) ->
        Forall (well_formed_omitted dov df)
          (omitted_periods (fold_left (validate_period dov df cov) ladder st))).
Proof.
  induction ladder as [|[period_name period_months] rest IH]; intro st.
  - exists []. simpl. rewrite !app_nil_r. repeat split; trivial.
  - cbn [fold_left].
    destruct (validate_period_cases cov st period_name period_months)
      as [(why & Hwhy & E)|E]; rewrite E;
      match goal with |- context [fold_left _ rest ?s] =>
        destruct (IH s) as (mask & Hlen & Hv & Ho & Hwf) end.
    + exists (false :: mask). simpl. rewrite Hlen, Hv, Ho. simpl.
      rewrite map_app, <- app_assoc. simpl.
      repeat split; trivial.
      intro H. apply Hwf. simpl. apply Forall_app. split; [exact H|].
      constructor; [|constructor]. split; [exact Hwhy|reflexivity].
    + exists (true :: mask). simpl. rewrite Hlen, Hv, Ho. simpl.
      rewrite map_app, <- app_assoc. simpl.
      repeat split; trivial.
Qed.

End PeriodValidator.

Section Selections.

Context {A : Type}.

Lemma select_In (mask : list bool) (l : list A) (x : A) :
  In x (select mask l) -> In x l.
Proof.
  revert l. induction mask as [|b mask IH]; intros [|y l]; simpl; try tauto.
  destruct b; simpl; intros H.
  - destruct H as [H|H]; [now left|right; now apply IH].
  - right. now apply IH.
Qed.

Lemma select_or_complement (mask : list bool) (l : list A) (x : A) :
  List.length mask = List.length l -> In x l ->
  In x (select mask l) \/ In x (select (map negb mask) l).
Proof.
  revert l. induction mask as [|b mask IH]; intros [|y l]; simpl;
    try discriminate; try tauto.
  intros [= Hlen] [->|H].
  - destruct b; simpl; [left|right]; now left.
  - destruct (IH l Hlen H) as [H'|H']; destruct b; simpl; auto.
Qed.

Lemma select_not_both (mask : list bool) (l : list A) (x : A) :
  NoDup l -> In x (select mask l) -> ~ In x (select (map negb mask) l).
Proof.
  revert l. induction mask as [|b mask IH]; intros [|y l]; simpl; try tauto.
  intros Hnd. inversion Hnd as [|? ? Hy Hl]; subst.
  destruct b; simpl.
  - intros [->|H] H'.
    + apply Hy. now apply select_In in H'.
    + now apply (IH l Hl H).
  - intros H [->|H'].
    + apply Hy. now apply select_In in H.
    + now apply (IH l Hl H).
Qed.

Lemma select_lengths (mask : list bool) (l : list A) :
  List.length mask = List.length l ->
  (List.length (select mask l) + List.length (select (map negb mask) l)
   = List.length l)%nat.
Proof.
  revert l. induction mask as [|b mask IH]; intros [|y l]; simpl;
    try discriminate; trivial.
  intros [= Hlen]. specialize (IH l Hlen). destruct b; simpl; lia.
Qed.

End Selections.

Section LadderPartition.

Lemma time_periods_NoDup : NoDup time_periods.
Proof.
  unfold time_periods.
  repeat (constructor; [simpl; intuition discriminate|]).
  constructor.
Qed.

Lemma no_periods_well_formed (dov : Timestamp) (df : list processed_sale) :
  Forall (well_formed_omitted dov df) (omitted_periods no_periods).
Proof. constructor. Qed.

(** C10.  Whatever the processed table, the validator places each of the
    nine ladder entries in exactly one of [valid_periods] and
    [omitted_periods]: the two lists are the ladder cut in two along one
    mask, so each keeps the ladder's order, their lengths add up to nine,
    and every omitted entry carries the sale count of its window and a
    reason that is not the empty string. *)
Theorem ladder_is_partitioned (dov : Timestamp) (df : list processed_sale) :
  let v := validate_periods dov df in
  let accepted := map valid_entry (valid_periods v) in
  let rejected := map omitted_entry (omitted_periods v) in
  (exists mask : list bool,
      List.length mask = 9%nat
      /\ accepted = select mask time_periods
      /\ rejected = select (map negb mask) time_periods)
  /\ (forall p, In p time_periods ->
                (In p accepted /\ ~ In p rejected)
                \/ (In p rejected /\ ~ In p accepted))
  /\ (List.length (valid_periods v) + List.length (omitted_periods v)
      = 9)%nat
  /\ Forall (fun o =>
               Omitted.reason o <> ""%string
               /\ Omitted.sales_count o
                  = count_since df (cutoff dov (Omitted.months o)))
            (omitted_periods v).
Proof.
  intros v accepted rejected.
  destruct (validate_splits_ladder dov df (actual_coverage_months dov df)
              time_periods no_periods) as (mask & Hlen & Hv' & Ho' & Hwf').
  assert (Hv : accepted = select mask time_periods) by exact Hv'.
  assert (Ho : rejected = select (map negb mask) time_periods) by exact Ho'.
  assert (Hwf : Forall (well_formed_omitted dov df) (omitted_periods v))
    by (apply Hwf'; apply no_periods_well_formed).
  clear Hv' Ho' Hwf'.
  split; [|split; [|split]].
  - exists mask. repeat split; assumption.
  - intros p Hp. rewrite Hv, Ho.
    destruct (select_or_complement mask time_periods p Hlen Hp) as [H|H].
    + left. split; [exact H|].
      now apply select_not_both; [apply time_periods_NoDup|].
    + right. split; [exact H|]. intro H'.
      now apply (select_not_both mask time_periods p time_periods_NoDup H').
  - rewrite <- (length_map valid_entry), <- (length_map omitted_entry).
    fold accepted rejected. rewrite Hv, Ho.
    now apply (select_lengths mask time_periods).
  - exact Hwf.
Qed.

End LadderPartition.

Section PeriodOrder.

Lemma coverage_months_of_days (dov : Timestamp) (df : list processed_sale)
  (cd : Z) :
  actual_coverage_days dov df = Some cd ->
  actual_coverage_months dov df = fin (inject_Z cd / 30.44).
Proof.
  intro H. unfold actual_coverage_months. rewrite H.
  unfold fdiv, of_Z, fin. change (sgn (Qred 30.44)) with Gt. cbv iota.
  apply fin_eq. now rewrite !Qred_correct.
Qed.

Lemma beyond_coverage_iff (c : Q) (period_months : Z) :
  fgtb (of_Z period_months) (fadd (fin c) (of_Z buffer_months)) = true
  <-> c + 1 < inject_Z period_months.
Proof.
  unfold of_Z. rewrite fadd_fin, fgtb_fin. reflexivity.
Qed.

Lemma within_coverage_iff (c : Q) (period_months : Z) :
  fgtb (of_Z period_months) (fadd (fin c) (of_Z buffer_months)) = false
  <-> inject_Z period_months <= c + 1.
Proof.
  unfold of_Z. rewrite fadd_fin, fgtb_fin_false. reflexivity.
Qed.

(** C3, as the code has it.  A pass of the loop over a ladder entry, with
    [n] the number of sales on or after the cutoff, first omits the entry
    when its month count exceeds the coverage in months plus one; otherwise
    omits it when [n] equals the sale count of the last accepted period;
    otherwise accepts it.  The decision reads the accepted list only, so an
    entry whose count differs from the last accepted one is accepted
    whatever the omitted list holds.  The cutoff is the date of value minus
    [months * 30.44] days cut to whole days: 91, 182, 273, 365, 547, 730 and
    1095 days for the ladder.  The validator is this pass folded over the
    ladder, first entry first, from two empty lists. *)
Theorem period_validation_order (dov : Timestamp) (df : list processed_sale)
  (st : validation) (period_name : string) (period_months : Z) (cd : Z) :
  actual_coverage_days dov df = Some cd ->
  let coverage := inject_Z cd / 30.44 in
  let n := count_since df (cutoff dov period_months) in
  let st' := validate_period dov df (actual_coverage_months dov df) st
                             (period_name, period_months) in
  (coverage + 1 < inject_Z period_months ->
   valid_periods st' = valid_periods st
   /\ omitted_periods st'
      = omitted_periods st
        ++ [omitted_record dov df period_name period_months
              (beyond_coverage_reason (actual_coverage_months dov df))])
  /\ (inject_Z period_months <= coverage + 1 ->
      forall prev, last_valid st = Some prev -> n = Valid.sales_count prev ->
      valid_periods st' = valid_periods st
      /\ omitted_periods st'
         = omitted_periods st
           ++ [omitted_record dov df period_name period_months
                 (duplicate_reason prev n)])
  /\ (inject_Z period_months <= coverage + 1 ->
      (forall prev, last_valid st = Some prev -> n <> Valid.sales_count prev) ->
      valid_periods st'
      = valid_periods st ++ [valid_record dov df period_name period_months]
      /\ omitted_periods st' = omitted_periods st)
  /\ cutoff dov period_months
     = (dov - timedelta_days (int (inject_Z period_months * 30.44)))%Z
  /\ map (fun m => int (inject_Z m * 30.44)) (map snd time_periods)
     = [91; 182; 273; 365; 182; 365; 547; 730; 1095]%Z
  /\ validate_periods dov df
     = fold_left (validate_period dov df (actual_coverage_months dov df))
                 time_periods no_periods.
Proof.
  intros Hcd coverage n st'.
  pose proof (coverage_months_of_days dov df cd Hcd) as Hcov.
  fold coverage in Hcov.
  split; [|split; [|split; [|split; [|split; [|reflexivity]]]]].
  - intro H. unfold st'. rewrite validate_period_beyond.
    + split; reflexivity.
    + rewrite Hcov. now apply beyond_coverage_iff.
  - intros H prev Hlast Hn. unfold st'.
    rewrite (validate_period_duplicate dov df _ st _ _ prev); trivial.
    + split; reflexivity.
    + rewrite Hcov. now apply within_coverage_iff.
  - intros H Hne. unfold st'. rewrite validate_period_fresh; trivial.
    + split; reflexivity.
    + rewrite Hcov. now apply within_coverage_iff.
  - reflexivity.
  - vm_compute. reflexivity.
Qed.

End PeriodOrder.

Section PeriodOrderOnSamples.

Local Open Scope string_scope.

(** On sales 10, 200 and 250 days old the loop accepts "0-3 months" (one
    sale), omits "4-6 months" (one sale again), accepts "7-9 months" (three
    sales) and omits "9-12 months"; "0-6 months", with one sale, is then
    accepted: its count differs from the last accepted one, though the
    omitted "4-6 months" had the same count. *)
Lemma period_validation_order_witness :
  let st := validate_ladder Sample.dov Sample.spread_table
                            (firstn 4 time_periods) in
  let st' := validate_period Sample.dov Sample.spread_table
               (actual_coverage_months Sample.dov Sample.spread_table) st
               ("0-6 months", 6%Z) in
  map Valid.name (valid_periods st) = ["0-3 months"; "7-9 months"]
  /\ map (fun o => (Omitted.name o, Omitted.sales_count o))
         (omitted_periods st)
     = [("4-6 months", 1%nat); ("9-12 months", 3%nat)]
  /\ count_since Sample.spread_table (cutoff Sample.dov 6) = 1%nat
  /\ valid_periods st'
     = (valid_periods st
        ++ [valid_record Sample.dov Sample.spread_table "0-6 months" 6])%list
  /\ omitted_periods st' = omitted_periods st.
Proof.
  intros st st'.
  assert (Hcd : actual_coverage_days Sample.dov Sample.spread_table
                = Some 250%Z) by (vm_compute; reflexivity).
  destruct (period_validation_order Sample.dov Sample.spread_table st
              "0-6 months" 6 250 Hcd) as (_ & _ & Hfresh & _).
  split; [vm_compute; reflexivity|].
  split; [vm_compute; reflexivity|].
  split; [vm_compute; reflexivity|].
  apply Hfresh.
  - apply Qle_bool_iff. vm_compute. reflexivity.
  - intros prev Hprev. vm_compute in Hprev. injection Hprev as <-.
    vm_compute. discriminate.
Defined.

(** The cutoff recorded for "0-3 months" is 91 whole days before the date
    of value, 0.32 day later than [date_of_value - 3 * 30.44 days]; a sale
    closed 91 days and 6 hours before the date of value lies between the
    two, and is not counted. *)
Lemma cutoff_is_cut_to_whole_days :
  let v := validate_periods Sample.dov Sample.intraday_table in
  map (fun p => (Valid.name p, Valid.cutoff_date p, Valid.sales_count p))
      (valid_periods v)
  = [("0-3 months", Sample.midnight (19723 - 91), 1%nat)]
  /\ stated_cutoff Sample.dov 3
     = (Sample.midnight (19723 - 91) - 27648000000)%Z
  /\ count_since Sample.intraday_table (stated_cutoff Sample.dov 3) = 2%nat.
Proof.
  vm_compute. repeat split; reflexivity.
Qed.

End PeriodOrderOnSamples.

(** *** The processed table *)

Section ProcessedTable.

Lemma date_leb_total (a b : option Timestamp) :
  date_leb a b = false -> date_leb b a = true.
Proof.
  destruct a as [x|], b as [y|]; simpl; try congruence.
  rewrite Z.leb_gt, Z.leb_le. lia.
Qed.

Lemma date_le_trans (a b c : processed_sale) :
  date_le a b -> date_le b c -> date_le a c.
Proof.
  unfold date_le.
  destruct (date_of a) as [x|], (date_of b) as [y|], (date_of c) as [z|];
    simpl; try congruence.
  rewrite !Z.leb_le. lia.
Qed.

Lemma insert_by_date_perm (s : processed_sale) (l : list processed_sale) :
  Permutation (insert_by_date s l) (s :: l).
Proof.
  induction l as [|h t IH]; simpl; [reflexivity|].
  destruct (date_leb (date_of s) (date_of h)); [reflexivity|].
  rewrite IH. apply perm_swap.
Qed.

Lemma sort_values_perm (l : list processed_sale) :
  Permutation (sort_values l) l.
Proof.
  induction l as [|h t IH]; simpl; [reflexivity|].
  rewrite insert_by_date_perm. now constructor.
Qed.

Lemma insert_by_date_sorted (s : processed_sale) (l : list processed_sale) :
  Sorted date_le l -> Sorted date_le (insert_by_date s l).
Proof.
  induction l as [|h t IH]; simpl; intro H.
  - repeat constructor.
  - destruct (date_leb (date_of s) (date_of h)) eqn:E.
    + constructor; [exact H|]. constructor. exact E.
    + inversion H as [|? ? Ht Hhd]; subst.
      constructor; [now apply IH|].
      destruct t as [|h' t']; simpl.
      * constructor. now apply date_leb_total.
      * destruct (date_leb (date_of s) (date_of h')).
        -- constructor. now apply date_leb_total.
        -- constructor. now inversion Hhd.
Qed.

Lemma sort_values_sorted (l : list processed_sale) :
  Sorted date_le (sort_values l).
Proof.
  induction l as [|h t IH]; simpl; [constructor|].
  now apply insert_by_date_sorted.
Qed.

Lemma sort_values_strongly_sorted (l : list processed_sale) :
  StronglySorted date_le (sort_values l).
Proof.
  apply Sorted_StronglySorted; [|apply sort_values_sorted].
  intros a b c. apply date_le_trans.
Qed.

Lemma derive_retained (dov : Timestamp) (df : list sale) :
  Forall (retained dov) (map (derive dov) (filter_on_or_before dov df)).
Proof.
  apply Forall_forall. intros p Hp.
  apply in_map_iff in Hp as (s & <- & Hs).
  apply filter_In in Hs as [_ Hs]. unfold on_or_before in Hs.
  destruct (Sale_Date s) as [t|] eqn:Ht; [|discriminate].
  exists t. unfold date_of, derive. simpl. rewrite Ht.
  repeat split; trivial. now apply Z.leb_le.
Qed.

Lemma map_row_derive (dov : Timestamp) (l : list sale) :
  map row (map (derive dov) l) = l.
Proof.
  rewrite map_map. rewrite <- (map_id l) at 2. now apply map_ext.
Qed.

Lemma analyse_table (form : form_data) (kept : list sale)
  (out out' : list log_line) (code : Z) (f : files) :
  analyse form kept out = Exit code out' (Some f) ->
  sales_data_processed_csv f
  = sort_values (map (derive (DATE_OF_VALUE form)) kept).
Proof.
  unfold analyse. destruct (trend_analysis _); [|discriminate].
  intro H. apply (f_equal written_table) in H. symmetry. exact H.
Qed.

Lemma Market_Analysis_table (form : form_data) (columns : list string)
  (df : list sale) (code : Z) (out : list log_line) (f : files) :
  Market_Analysis form columns df = Exit code out (Some f) ->
  sales_data_processed_csv f = processed (DATE_OF_VALUE form) df.
Proof.
  unfold Market_Analysis, processed.
  destruct (missing_final columns); [|discriminate].
  destruct (missing_fields form); [|discriminate].
  destruct (filter_on_or_before (DATE_OF_VALUE form) df) as [|s kept] eqn:E.
  - intros [= _ _ <-]. reflexivity.
  - apply analyse_table.
Qed.

Lemma processed_retained (dov : Timestamp) (df : list sale) :
  Forall (retained dov) (processed dov df).
Proof.
  unfold processed. apply Forall_forall. intros p Hp.
  apply (Permutation_in _ (sort_values_perm _)) in Hp.
  revert p Hp. apply Forall_forall. apply derive_retained.
Qed.

Lemma processed_rows (dov : Timestamp) (df : list sale) :
  Permutation (map row (processed dov df)) (filter_on_or_before dov df).
Proof.
  unfold processed.
  rewrite <- (map_row_derive dov (filter_on_or_before dov df)) at 2.
  apply Permutation_map. apply sort_values_perm.
Qed.

Lemma dates_of_retained (dov : Timestamp) (l : list processed_sale) :
  Forall (retained dov) l ->
  map date_of l = map Some (dates_of l)
  /\ Forall (fun t => (t <= dov)%Z) (dates_of l).
Proof.
  induction 1 as [|p l (t & Ht & Hle & _) _ [IH1 IH2]]; simpl.
  - split; constructor.
  - rewrite Ht, IH1. split; [reflexivity|]. now constructor.
Qed.

Lemma dates_of_sorted (dov : Timestamp) (l : list processed_sale) :
  Forall (retained dov) l -> StronglySorted date_le l ->
  StronglySorted Z.le (dates_of l).
Proof.
  intros Hret Hs. induction Hs as [|p l Hs IH Hall]; simpl.
  - constructor.
  - inversion Hret as [|? ? (t & Ht & _) Hret']; subst.
    constructor; [now apply IH|].
    rewrite Ht. unfold dates_of. apply Forall_map.
    rewrite Forall_forall in Hall, Hret' |- *.
    intros q Hq. destruct (Hret' q Hq) as (u & Hu & _).
    specialize (Hall q Hq). unfold date_le in Hall.
    rewrite Ht, Hu in Hall. rewrite Hu. now apply Z.leb_le.
Qed.

End ProcessedTable.

Section ProcessedTableClaim.

(** C5.  Whenever the script writes the processed table, its rows are the
    rows of the input that pass the date filter, each with a sale date on or
    before the date of value; the table is sorted by sale date, ascending;
    and each row carries the price per square foot and the days from the
    date of value computed from that row. *)
Theorem processed_table_is_filtered_and_sorted (form : form_data)
  (columns : list string) (df : list sale) (code : Z) (out : list log_line)
  (f : files) :
  Market_Analysis form columns df = Exit code out (Some f) ->
  let table := sales_data_processed_csv f in
  let dov := DATE_OF_VALUE form in
  Permutation (map row table) (filter_on_or_before dov df)
  /\ map date_of table = map Some (dates_of table)
  /\ Forall (fun t => (t <= dov)%Z) (dates_of table)
  /\ StronglySorted Z.le (dates_of table)
  /\ Forall (fun p =>
       Price_Per_SF p = fdiv (Sale_Price (row p)) (Living_Area (row p))
       /\ Days_From_DOV p = dt_days dov (date_of p)) table.
Proof.
  intros H table dov.
  apply Market_Analysis_table in H. fold table dov in H. rewrite H.
  pose proof (processed_retained dov df) as Hret.
  destruct (dates_of_retained dov _ Hret) as [Hdates Hle].
  split; [apply processed_rows|].
  split; [exact Hdates|].
  split; [exact Hle|].
  split.
  - apply (dates_of_sorted dov); [exact Hret|].
    apply sort_values_strongly_sorted.
  - revert Hret. apply Forall_impl. intros p (t & Ht & _ & Hpsf & Hdays).
    rewrite Ht. split; assumption.
Qed.

Lemma processed_table_is_filtered_and_sorted_witness :
  exists out f,
    Market_Analysis Sample.form Sample.all_columns Sample.raw_table
    = Exit 0 out (Some f)
    /\ map (fun p => Street_Name (row p)) (sales_data_processed_csv f)
       = ["Oak"; "Elm"; "Ash"]%string
    /\ map Days_From_DOV (sales_data_processed_csv f)
       = [Some 223; Some 123; Some 23]%Z
    /\ StronglySorted Z.le (dates_of (sales_data_processed_csv f))
    /\ Forall (fun t => (t <= Sample.dov)%Z)
              (dates_of (sales_data_processed_csv f)).
Proof.
  eexists. eexists.
  assert (H : Market_Analysis Sample.form Sample.all_columns Sample.raw_table
              = Exit 0 ?[out] (Some ?[f]))
    by (vm_compute; reflexivity).
  split; [exact H|].
  split; [vm_compute; reflexivity|].
  split; [vm_compute; reflexivity|].
  destruct (processed_table_is_filtered_and_sorted _ _ _ _ _ _ H)
    as (_ & _ & Hle & Hsorted & _).
  split; [exact Hsorted|exact Hle].
Defined.

End ProcessedTableClaim.

(** *** Degenerate input *)

Section DegenerateInput.

Local Open Scope string_scope.




End DegenerateInput.

(** *** Rows whose date does not parse *)

Section UnparseableDates.

Lemma filter_parseable (dov : Timestamp) (df : list sale) :
  filter_on_or_before dov (parseable df) = filter_on_or_before dov df.
Proof.
  unfold filter_on_or_before, parseable.
  induction df as [|s df IH]; simpl; [reflexivity|].
  destruct (Sale_Date s) as [t|] eqn:Ht; simpl; rewrite ?Ht; simpl.
  - now rewrite IH.
  - exact IH.
Qed.

Lemma Market_Analysis_filter (form : form_data) (columns : list string)
  (df df' : list sale) :
  filter_on_or_before (DATE_OF_VALUE form) df
  = filter_on_or_before (DATE_OF_VALUE form) df' ->
  Market_Analysis form columns df = Market_Analysis form columns df'.
Proof.
  intro H. unfold Market_Analysis. now rewrite H.
Qed.

Lemma unparseable_In (df : list sale) (s : sale) :
  In s (unparseable df) -> Sale_Date s = None.
Proof.
  unfold unparseable. intro H. apply filter_In in H as [_ H].
  now destruct (Sale_Date s).
Qed.

(** C9, as the code has it.  Rows whose date did not parse never reach the
    processed table: they fail the date filter like the rows dated after the
    date of value.  Nothing records them: the run is the run on the input
    without them, and the count it prints first is the count of the rows
    kept. *)
Theorem unparseable_dates_are_dropped_without_record (form : form_data)
  (columns : list string) (df : list sale) :
  Market_Analysis form columns df = Market_Analysis form columns (parseable df)
  /\ (forall code out f,
         Market_Analysis form columns df = Exit code out (Some f) ->
         Forall (fun p => exists t, date_of p = Some t)
                (sales_data_processed_csv f)
         /\ forall s, In s (unparseable df) ->
                      ~ In s (map row (sales_data_processed_csv f)))
  /\ (missing_final columns = [] -> missing_fields form = [] ->
      hd_error (stdout_of (Market_Analysis form columns df))
      = Some (SalesOnOrBefore
                (List.length (filter_on_or_before (DATE_OF_VALUE form) df)))).
Proof.
  split; [|split].
  - apply Market_Analysis_filter. symmetry. apply filter_parseable.
  - intros code out f H. apply Market_Analysis_table in H. rewrite H.
    pose proof (processed_retained (DATE_OF_VALUE form) df) as Hret.
    split.
    + revert Hret. apply Forall_impl. intros p (t & Ht & _). now exists t.
    + intros s Hs Hin. apply unparseable_In in Hs.
      apply in_map_iff in Hin as (p & <- & Hp).
      rewrite Forall_forall in Hret. destruct (Hret p Hp) as (t & Ht & _).
      unfold date_of in Ht. congruence.
  - intros Hcols Hform. unfold Market_Analysis. rewrite Hcols, Hform.
    destruct (filter_on_or_before (DATE_OF_VALUE form) df) as [|s kept] eqn:E;
      [reflexivity|].
    unfold analyse. destruct (trend_analysis _); reflexivity.
Qed.

Lemma unparseable_dates_are_dropped_without_record_witness :
  Market_Analysis Sample.form Sample.all_columns Sample.raw_table
  = Market_Analysis Sample.form Sample.all_columns
                    (parseable Sample.raw_table)
  /\ hd_error (stdout_of (Market_Analysis Sample.form Sample.all_columns
                                          Sample.raw_table))
     = Some (SalesOnOrBefore 3).
Proof.
  destruct (unparseable_dates_are_dropped_without_record
              Sample.form Sample.all_columns Sample.raw_table)
    as (Hsame & _ & Hcount).
  split; [exact Hsame|].
  rewrite Hcount; vm_compute; reflexivity.
Defined.

(** Two inputs, one with an unparseable row and one without, on which the
    script prints and writes the same: the output tells nothing of the
    dropped row. *)
Lemma unparseable_row_leaves_no_trace :
  List.length (unparseable Sample.raw_table) = 1%nat
  /\ List.length (unparseable Sample.dated_rows) = 0%nat
  /\ Market_Analysis Sample.form Sample.all_columns Sample.raw_table
     = Market_Analysis Sample.form Sample.all_columns Sample.dated_rows
  /\ exists out f,
       Market_Analysis Sample.form Sample.all_columns Sample.raw_table
       = Exit 0 out (Some f).
Proof.
  split; [reflexivity|]. split; [reflexivity|].
  split; [vm_compute; reflexivity|].
  eexists. eexists. vm_compute. reflexivity.
Qed.

End UnparseableDates.

(** *** Required columns *)

Section RequiredColumns.

Local Open Scope string_scope.

Lemma missing_final_In (columns : list string) (c : string) :
  In c (missing_final columns)
  <-> In c required_final /\ mem c (mapped_columns columns) = false.
Proof.
  unfold missing_final. rewrite filter_In, negb_true_iff. reflexivity.
Qed.

Lemma missing_final_nil (columns : list string) :
  missing_final columns = []
  <-> forall c, In c required_final -> mem c (mapped_columns columns) = true.
Proof.
  split.
  - intros H c Hc. destruct (mem c (mapped_columns columns)) eqn:E; trivial.
    assert (Hin : In c (missing_final columns))
      by (apply missing_final_In; now split).
    rewrite H in Hin. destruct Hin.
  - intro H. destruct (missing_final columns) as [|c l] eqn:E; trivial.
    assert (Hin : In c (missing_final columns)) by (rewrite E; now left).
    apply missing_final_In in Hin as [Hc Hm].
    rewrite (H c Hc) in Hm. discriminate.
Qed.

Lemma Market_Analysis_missing_columns (form : form_data)
  (columns : list string) (df : list sale) :
  missing_final columns <> [] ->
  Market_Analysis form columns df
  = Exit 1 [MissingFinalColumns (missing_final columns)] None.
Proof.
  intro H. unfold Market_Analysis.
  destruct (missing_final columns); [now elim H|reflexivity].
Qed.

(** C8, as the code has it.  All ten canonical columns are required: when
    any one of them is not among the mapped headers, the script reports the
    missing names and exits with status 1, whatever the form and the rows;
    the column check passes exactly when all ten are present. *)
Theorem every_final_column_is_required (form : form_data)
  (columns : list string) (df : list sale) :
  required_final
  = ["Sale_Price"; "Sale_Date"; "Living_Area"; "Bedrooms"; "Bathrooms";
     "Street_Number"; "Street_Name"; "DOM"; "CDOM"; "Garage"]
  /\ (forall c, In c required_final ->
                mem c (mapped_columns columns) = false ->
                In c (missing_final columns)
                /\ Market_Analysis form columns df
                   = Exit 1 [MissingFinalColumns (missing_final columns)] None)
  /\ ((forall missing,
          Market_Analysis form columns df
          <> Exit 1 [MissingFinalColumns missing] None)
      <-> forall c, In c required_final ->
                    mem c (mapped_columns columns) = true).
Proof.
  split; [reflexivity|]. split.
  - intros c Hc Hm.
    assert (Hin : In c (missing_final columns))
      by (apply missing_final_In; now split).
    split; [exact Hin|].
    apply Market_Analysis_missing_columns. intro E. rewrite E in Hin.
    destruct Hin.
  - rewrite <- missing_final_nil. split.
    + intro H. destruct (missing_final columns) as [|c l] eqn:E; trivial.
      exfalso. apply (H (c :: l)). rewrite <- E.
      apply Market_Analysis_missing_columns. rewrite E. discriminate.
    + intros E missing. unfold Market_Analysis. rewrite E.
      destruct (missing_fields form); [|discriminate].
      destruct (filter_on_or_before _ df); [discriminate|].
      unfold analyse. destruct (trend_analysis _); discriminate.
Qed.

Lemma every_final_column_is_required_witness :
  In "Garage" (missing_final Sample.three_columns)
  /\ Market_Analysis Sample.form Sample.three_columns Sample.raw_table
     = Exit 1 [MissingFinalColumns (missing_final Sample.three_columns)] None.
Proof.
  destruct (every_final_column_is_required Sample.form Sample.three_columns
              Sample.raw_table) as (_ & Hreq & _).
  apply (Hreq "Garage"); vm_compute; tauto.
Defined.

(** Headers that resolve price, date and living area and nothing else: the
    script stops on the seven other columns. *)
Lemma three_columns_are_not_enough :
  mapped_columns Sample.three_columns
  = ["Sale_Price"; "Sale_Date"; "Living_Area"]
  /\ Market_Analysis Sample.form Sample.three_columns Sample.raw_table
     = Exit 1
         [MissingFinalColumns
            ["Bedrooms"; "Bathrooms"; "Street_Number"; "Street_Name"; "DOM";
             "CDOM"; "Garage"]]
         None.
Proof.
  split; vm_compute; reflexivity.
Qed.

End RequiredColumns.

(** *** A comparable of living area zero *)

Section ZeroLivingArea.

Import AdjustmentAnalysis.

Lemma sgn_Qred (q : Q) : sgn (Qred q) = (q ?= 0).
Proof.
  rewrite <- (Qcompare_comp _ _ (Qred_correct q) 0 0 (Qeq_refl 0)).
  unfold sgn, Qcompare. simpl. now rewrite Z.mul_1_r.
Qed.

Lemma fneg_fin (a : Q) : fneg (fin a) = fin (- a).
Proof.
  unfold fneg, fin at 1. apply fin_eq. now rewrite Qred_correct.
Qed.

Lemma fmul_fin (a b : Q) : fmul (fin a) (fin b) = fin (a * b).
Proof.
  unfold fmul, fin at 1 2. apply fin_eq. now rewrite !Qred_correct.
Qed.

Lemma fdiv_fin (a b : Q) : 0 < b -> fdiv (fin a) (fin b) = fin (a / b).
Proof.
  intro Hb. unfold fdiv, fin at 1 2. rewrite sgn_Qred.
  rewrite (proj1 (Qgt_alt b 0) Hb).
  apply fin_eq. now rewrite !Qred_correct.
Qed.

Lemma fabs_fin (a : Q) : fabs (fin a) = fin (Qabs a).
Proof.
  unfold fabs, fin at 1. apply fin_eq. now rewrite Qred_correct.
Qed.

Lemma division_by_zero_is_not_finite (x : fval) :
  is_finite (fdiv x (fin 0)) = false.
Proof.
  destruct x as [a| | |]; try reflexivity.
  unfold fdiv, fin. change (sgn (Qred 0)) with Eq. cbv iota.
  now destruct (sgn a).
Qed.

Lemma sf_difference_of_zero (cfg : config) :
  sf_difference cfg (fin 0) = fin (- inject_Z (SUBJECT_LIVING_AREA cfg)).
Proof.
  unfold sf_difference, fsub, of_Z. rewrite fneg_fin, fadd_fin.
  apply fin_eq. ring.
Qed.

Lemma sf_adjustment_of_zero (cfg : config) (m : fval) :
  (0 < SUBJECT_LIVING_AREA cfg)%Z ->
  fltb (SF_THRESHOLD_PCT cfg) (fin 100) = true ->
  sf_difference_pct cfg (fin 0) = fin (-100)
  /\ sf_adjustment cfg m (fin 0)
     = (fmul (of_Z (SUBJECT_LIVING_AREA cfg)) m, fin 100).
Proof.
  intros Hpos Hthr.
  assert (Hq : 0 < inject_Z (SUBJECT_LIVING_AREA cfg)).
  { change 0 with (inject_Z 0). now rewrite <- Zlt_Qlt. }
  assert (Hne : ~ inject_Z (SUBJECT_LIVING_AREA cfg) == 0).
  { intro E. rewrite E in Hq. now apply (Qlt_irrefl 0). }
  assert (Hratio : fdiv (sf_difference cfg (fin 0))
                        (of_Z (SUBJECT_LIVING_AREA cfg)) = fin (-1)).
  { rewrite sf_difference_of_zero. unfold of_Z.
    rewrite (fdiv_fin _ _ Hq). apply fin_eq. now field. }
  assert (Hpct : sf_difference_pct cfg (fin 0) = fin (-100)).
  { unfold sf_difference_pct. rewrite Hratio, fmul_fin.
    apply fin_eq. reflexivity. }
  split; [exact Hpct|].
  unfold sf_adjustment. rewrite Hpct, fabs_fin.
  replace (fin (Qabs (-100))) with (fin 100) by (apply fin_eq; reflexivity).
  unfold fgtb. rewrite Hthr. f_equal.
  - rewrite sf_difference_of_zero, fneg_fin. unfold of_Z.
    f_equal. apply fin_eq. ring.
  - rewrite Hratio, fneg_fin, fmul_fin. apply fin_eq. reflexivity.
Qed.

(** C7, where the code departs from it.  A comparable of living area 0 is
    kept, and its price per square foot and adjusted price per square foot
    are divisions by zero, which give an infinity or NaN and raise nothing;
    but its size adjustment is not left out.  With a subject of positive
    living area and a threshold below 100 percent, the difference is -100
    percent, so the adjustment is applied: the amount is the subject's
    living area times the marginal value, and the percentage is +100. *)
Theorem zero_living_area_receives_a_size_adjustment (cfg : config)
  (m : fval) (s : processed_sale) :
  Living_Area (row s) = fin 0 ->
  (0 < SUBJECT_LIVING_AREA cfg)%Z ->
  fltb (SF_THRESHOLD_PCT cfg) (fin 100) = true ->
  let a := adjust cfg m s in
  comp a = s
  /\ SF_Difference_Pct a = fin (-100)
  /\ SF_Adj_Amount a = fmul (of_Z (SUBJECT_LIVING_AREA cfg)) m
  /\ SF_Adj_Pct a = fin 100
  /\ is_finite (fdiv (Sale_Price (row s)) (Living_Area (row s))) = false
  /\ is_finite (Adjusted_Price_Per_SF a) = false.
Proof.
  intros Hzero Hpos Hthr a.
  destruct (sf_adjustment_of_zero cfg m Hpos Hthr) as [Hpct Hadj].
  destruct (adjust_sf cfg m s) as [Hpair Hpsf]. fold a in Hpair, Hpsf.
  rewrite Hzero in Hpair, Hpsf. rewrite Hadj in Hpair.
  split; [apply adjust_comp|].
  split.
  { unfold a. rewrite (proj2 (adjust_sf_difference cfg m s)), Hzero.
    exact Hpct. }
  injection Hpair as Hamount Hadjpct.
  split; [exact Hamount|].
  split; [exact Hadjpct|].
  split.
  - rewrite Hzero. apply division_by_zero_is_not_finite.
  - rewrite Hpsf. apply division_by_zero_is_not_finite.
Qed.

(** A batch whose first comparable has living area 0: subject 1000 square
    feet, threshold 5 percent, marginal value 100 per square foot. *)
Lemma zero_living_area_receives_a_size_adjustment_witness :
  let s := derive Sample.dov (Sample.sold 100000 60 0 "Nil") in
  let a := adjust Sample.cfg (fin 100) s in
  (exists rest,
      Adjustment_Analysis Sample.cfg Sample.zero_area_comps = Some (a :: rest)
      /\ List.length rest = 2%nat)
  /\ marginal_value Sample.zero_area_comps = Some (fin 100)
  /\ Price_Per_SF s = PInf
  /\ SF_Difference_Pct a = fin (-100)
  /\ SF_Adj_Amount a = fmul (of_Z 1000) (fin 100)
  /\ SF_Adj_Pct a = fin 100
  /\ Adjusted_Sale_Price a = fin 203000
  /\ Adjusted_Price_Per_SF a = PInf.
Proof.
  intros s a.
  destruct (zero_living_area_receives_a_size_adjustment Sample.cfg (fin 100)
              s eq_refl eq_refl eq_refl)
    as (_ & Hpct & Hamount & Hadjpct & _ & _).
  split; [eexists; split; [vm_compute; reflexivity|reflexivity]|].
  split; [vm_compute; reflexivity|].
  split; [vm_compute; reflexivity|].
  split; [exact Hpct|].
  split; [exact Hamount|].
  split; [exact Hadjpct|].
  split; vm_compute; reflexivity.
Defined.

End ZeroLivingArea.

(* ================================================================== *)
(** ** Further properties *)
(* ================================================================== *)

Import Closed.

(** *** The form dictionary *)

Section FormDictionary.

Import FormInput.

Lemma get_set_same (d : dict) (k : string) (v : value) :
  get (set d k v) k = Some v.
Proof.
  induction d as [|[k' v'] d IH]; simpl.
  - now rewrite String.eqb_refl.
  - destruct (String.eqb k k') eqn:E; simpl; rewrite ?E; trivial.
    now rewrite String.eqb_refl.
Qed.

Lemma get_set_other (d : dict) (k k' : string) (v : value) :
  String.eqb k k' = false -> get (set d k' v) k = get d k.
Proof.
  intro Hne. induction d as [|[k0 v0] d IH]; simpl.
  - now rewrite Hne.
  - destruct (String.eqb k' k0) eqn:E; simpl.
    + apply String.eqb_eq in E. subst k0. now rewrite Hne.
    + destruct (String.eqb k k0); trivial.
Qed.

Lemma get_normalize_key (d : dict) (alt canon k : string) :
  get (normalize_key d (alt, canon)) k
  = if String.eqb k canon then
      match get d canon with
      | Some v => Some v
      | None => get d alt
      end
    else get d k.
Proof.
  unfold normalize_key, has.
  destruct (String.eqb k canon) eqn:E.
  - apply String.eqb_eq in E. subst k.
    destruct (get d alt) as [v|] eqn:Ha.
    + destruct (get d canon) as [w|] eqn:Hc; [exact Hc|apply get_set_same].
    + now destruct (get d canon).
  - destruct (get d alt) as [v|]; trivial.
    destruct (get d canon); trivial. now apply get_set_other.
Qed.

Lemma first_alias_ext (table : list (string * string)) (d d' : dict)
  (canon : string) :
  (forall entry, In entry table -> get d' (fst entry) = get d (fst entry)) ->
  first_alias table d' canon = first_alias table d canon.
Proof.
  induction table as [|[alt c] table IH]; intro H; simpl; trivial.
  pose proof (H (alt, c) (or_introl eq_refl)) as Halt. simpl in Halt.
  rewrite Halt.
  rewrite IH by (intros e He; apply H; now right). reflexivity.
Qed.

Lemma get_normalize_with (table : list (string * string)) :
  no_chain table = true ->
  forall (d : dict) (k : string),
    get (normalize_with table d) k
    = match get d k with
      | Some v => Some v
      | None => first_alias table d k
      end.
Proof.
  unfold normalize_with.
  induction table as [|[alt canon] table IH]; intros Hchain d k;
    cbn [fold_left first_alias].
  - now destruct (get d k).
  - simpl in Hchain. apply andb_true_iff in Hchain as [Hhere Hrest].
    rewrite (IH Hrest).
    assert (Hext : first_alias table (normalize_key d (alt, canon)) k
                   = first_alias table d k).
    { apply first_alias_ext. intros [a c] He. cbn [fst].
      rewrite get_normalize_key.
      rewrite forallb_forall in Hhere. specialize (Hhere (a, c) He).
      simpl in Hhere. apply negb_true_iff in Hhere. now rewrite Hhere. }
    rewrite Hext, get_normalize_key.
    destruct (String.eqb k canon) eqn:E.
    + apply String.eqb_eq in E. subst k.
      destruct (get d canon) as [v|]; reflexivity.
    + reflexivity.
Qed.

(** X1.  After the alternate keys are normalised, a key the form already
    had keeps its value, and a key it lacked takes the value of the first
    alternate key of [alt_key_map], in the order of the table, that targets
    it and is in the form; it stays absent when there is none. *)
Theorem canonical_key_wins_then_first_alias (d : dict) (k : string) :
  get (normalize d) k
  = match get d k with
    | Some v => Some v
    | None => first_alias alt_key_map d k
    end.
Proof.
  apply get_normalize_with. vm_compute. reflexivity.
Qed.

End FormDictionary.

(** *** The path of the sales CSV *)

Section CsvPath.

Import FormInput.

Lemma first_path_nonempty (d : dict) (keys : list string) (p : string) :
  first_path d keys = Some p -> nonempty p = true.
Proof.
  induction keys as [|key keys IH]; simpl; [discriminate|].
  destruct (get d key) as [[val| | |]|]; trivial.
  destruct (nonempty (strip val)) eqn:E; trivial.
  now intros [= <-].
Qed.

(** X2.  The path of the sales CSV is resolved by precedence.  A
    command-line argument that is not blank wins, stripped.  Without one,
    the stripped value of the first of the keys [csv_path], [csv],
    [sales_csv], [data_file] that holds a non-blank string is taken.
    Without that, the file chosen in the dialog is taken, when the dialog
    is allowed.  A resolved path is never empty, and the script stops with
    status 2 exactly when all three sources give nothing. *)
Theorem csv_path_is_resolved_by_precedence (arg : option string) (d : dict)
  (allow_gui_picker : bool) (chosen : option string) :
  let resolved := resolve_csv_path arg d allow_gui_picker chosen in
  let blank_arg :=
    match arg with Some a => nonempty (strip a) = false | None => True end in
  let no_choice :=
    allow_gui_picker = false
    \/ match chosen with Some c => nonempty c = false | None => True end in
  (forall a, arg = Some a -> nonempty (strip a) = true ->
             resolved = Some (strip a))
  /\ (forall p, blank_arg -> first_path d path_keys = Some p ->
                resolved = Some p)
  /\ (forall c, blank_arg -> first_path d path_keys = None ->
                allow_gui_picker = true -> chosen = Some c ->
                nonempty c = true -> resolved = Some c)
  /\ (forall p, resolved = Some p -> nonempty p = true)
  /\ (resolved = None
      <-> blank_arg /\ first_path d path_keys = None /\ no_choice).
Proof.
  intros resolved blank_arg no_choice.
  assert (Hstrip : forall a, nonempty (strip a) = true -> nonempty a = true).
  { intros [|c a]; simpl; trivial. }
  assert (Hblank : blank_arg ->
                   (match arg with
                    | Some a => if nonempty a then strip a else EmptyString
                    | None => EmptyString
                    end) = EmptyString).
  { unfold blank_arg. destruct arg as [a|]; trivial.
    destruct (nonempty a); trivial.
    destruct (strip a); simpl; [reflexivity|discriminate]. }
  split; [|split; [|split; [|split]]].
  - intros a -> Ha. unfold resolved, resolve_csv_path. cbv zeta.
    rewrite (Hstrip a Ha). rewrite !Ha. cbn [negb andb]. now rewrite Ha.
  - intros p Hb Hp. unfold resolved, resolve_csv_path. cbv zeta.
    rewrite (Hblank Hb), Hp. cbn [nonempty].
    rewrite (first_path_nonempty _ _ _ Hp). cbn [negb andb].
    now rewrite (first_path_nonempty _ _ _ Hp).
  - intros c Hb Hp -> -> Hc. unfold resolved, resolve_csv_path. cbv zeta.
    rewrite (Hblank Hb), Hp. cbn [nonempty negb andb]. now rewrite !Hc.
  - intros p. unfold resolved, resolve_csv_path. cbv zeta.
    match goal with |- (if nonempty ?x then _ else _) = _ -> _ =>
      destruct (nonempty x) eqn:E; [|discriminate];
      intros [= <-]; exact E end.
  - unfold resolved, resolve_csv_path. cbv zeta. split.
    + intro H.
      assert (Hb : blank_arg).
      { unfold blank_arg. destruct arg as [a|]; trivial.
        destruct (nonempty (strip a)) eqn:Es; trivial.
        rewrite (Hstrip a Es) in H. rewrite !Es in H.
        cbn [negb andb] in H. rewrite Es in H. discriminate. }
      rewrite (Hblank Hb) in H. cbn [nonempty] in H.
      split; [exact Hb|].
      destruct (first_path d path_keys) as [p|] eqn:Hp.
      * rewrite (first_path_nonempty _ _ _ Hp) in H. cbn [negb andb] in H.
        rewrite (first_path_nonempty _ _ _ Hp) in H. discriminate.
      * split; [reflexivity|]. unfold no_choice.
        cbn [nonempty negb andb] in H.
        destruct allow_gui_picker; [right|now left].
        destruct chosen as [c|]; trivial.
        destruct (nonempty c) eqn:Ec; trivial.
        rewrite Ec in H. discriminate.
    + intros (Hb & Hp & Hc). rewrite (Hblank Hb), Hp.
      cbn [nonempty negb andb].
      destruct Hc as [->|Hc]; [reflexivity|].
      destruct allow_gui_picker; [|reflexivity].
      destruct chosen as [c|]; [|reflexivity]. now rewrite Hc.
Qed.

End CsvPath.

(** *** The column mapper *)

Section ColumnMapper.

Local Open Scope string_scope.

Lemma lstrip_clean (s : string) :
  match lstrip s with
  | String c _ => is_space c = false
  | EmptyString => True
  end.
Proof.
  induction s as [|c s IH]; simpl; trivial.
  destruct (is_space c) eqn:E; [exact IH|exact E].
Qed.

Lemma rstrip_clean (s : string) :
  match s with String c _ => is_space c = false | EmptyString => True end ->
  match rstrip s with
  | String c _ => is_space c = false
  | EmptyString => True
  end.
Proof.
  destruct s as [|c s]; simpl; trivial.
  intro H. destruct (rstrip s); [now rewrite H|exact H].
Qed.

Lemma lstrip_of_clean (s : string) :
  match s with String c _ => is_space c = false | EmptyString => True end ->
  lstrip s = s.
Proof.
  destruct s as [|c s]; simpl; trivial. now intros ->.
Qed.

Lemma rstrip_cons (c : ascii) (s : string) :
  rstrip (String c s)
  = match rstrip s with
    | EmptyString => if is_space c then EmptyString else String c EmptyString
    | r => String c r
    end.
Proof. reflexivity. Qed.

Lemma rstrip_idempotent (s : string) : rstrip (rstrip s) = rstrip s.
Proof.
  induction s as [|c s IH]; [reflexivity|].
  rewrite rstrip_cons.
  destruct (rstrip s) as [|d r] eqn:E.
  - destruct (is_space c) eqn:Ec; [reflexivity|].
    rewrite rstrip_cons. cbn [rstrip]. now rewrite Ec.
  - rewrite rstrip_cons, IH. reflexivity.
Qed.

Lemma strip_idempotent (s : string) : strip (strip s) = strip s.
Proof.
  unfold strip.
  rewrite (lstrip_of_clean (rstrip (lstrip s))).
  - apply rstrip_idempotent.
  - apply rstrip_clean. apply lstrip_clean.
Qed.

(** The name a header has after the rename. *)
Lemma mapped_columns_map (columns : list string) :
  mapped_columns columns
  = map (fun col => match rename_target (strip col) with
                    | Some canonical => canonical
                    | None => strip col
                    end) columns.
Proof.
  unfold mapped_columns. now rewrite map_map.
Qed.

Lemma rename_target_required (col canonical : string) :
  rename_target col = Some canonical -> In canonical required_final.
Proof.
  unfold rename_target.
  repeat match goal with
         | |- (if ?b then _ else _) = _ -> _ => destruct b
         end;
    try discriminate; intros [= <-]; simpl; tauto.
Qed.

Lemma required_final_fixed (canonical : string) :
  In canonical required_final ->
  strip canonical = canonical /\ rename_target canonical = Some canonical
  \/ strip canonical = canonical /\ rename_target canonical = None.
Proof.
  simpl. intros H.
  repeat (destruct H as [<-|H]; [vm_compute; tauto|]).
  destruct H.
Qed.

(** X3.  The heuristic rename only ever produces one of the ten required
    names, and it is idempotent: renaming a header row that is already
    renamed changes nothing, so the verdict on the missing columns is the
    same. *)
Theorem column_rename_is_idempotent (columns : list string) :
  (forall col canonical,
      rename_target col = Some canonical -> In canonical required_final)
  /\ mapped_columns (mapped_columns columns) = mapped_columns columns
  /\ missing_final (mapped_columns columns) = missing_final columns.
Proof.
  split; [exact rename_target_required|].
  assert (H : mapped_columns (mapped_columns columns) = mapped_columns columns).
  { rewrite (mapped_columns_map (mapped_columns columns)).
    rewrite mapped_columns_map, map_map. apply map_ext. intro col.
    destruct (rename_target (strip col)) as [c|] eqn:E.
    - apply rename_target_required in E.
      destruct (required_final_fixed c E) as [[-> ->]|[-> ->]]; reflexivity.
    - now rewrite strip_idempotent, E. }
  split; [exact H|].
  unfold missing_final. now rewrite H.
Qed.

(** X4.  A header that contains "room" is never renamed to [Bedrooms]: the
    mapped name of such a header is [Bedrooms] only when the header,
    stripped, is literally [Bedrooms]. *)
Theorem room_headers_are_not_renamed_to_bedrooms (col : string) :
  isin "room" (lower (strip col)) = true ->
  rename_target (strip col) <> Some "Bedrooms"
  /\ (In "Bedrooms" (mapped_columns [col]) -> strip col = "Bedrooms").
Proof.
  intro Hroom.
  assert (Hne : rename_target (strip col) <> Some "Bedrooms").
  { unfold rename_target. rewrite Hroom. cbn [negb]. rewrite andb_false_r.
    repeat match goal with
           | |- (if ?b then _ else _) <> _ => destruct b
           end; discriminate. }
  split; [exact Hne|].
  rewrite mapped_columns_map. simpl.
  destruct (rename_target (strip col)) as [c|].
  - intros [->|[]]. now elim Hne.
  - now intros [->|[]].
Qed.

Lemma room_headers_are_not_renamed_to_bedrooms_witness :
  rename_target (strip " Bedrooms Total ") <> Some "Bedrooms"
  /\ (In "Bedrooms" (mapped_columns [" Bedrooms Total "]) ->
      strip " Bedrooms Total " = "Bedrooms").
Proof.
  apply (room_headers_are_not_renamed_to_bedrooms " Bedrooms Total ").
  vm_compute. reflexivity.
Defined.

End ColumnMapper.

(** *** The period validator without its state *)

Section ValidatorClosedForm.

Variable dov : Timestamp.
Variable df : list processed_sale.
Variable cov : fval.

Lemma last_valid_omit (st : validation) (period_name : string)
  (period_months : Z) (why : string) (n : nat) :
  valid_periods (omit st period_name period_months why n) = valid_periods st
  /\ last_valid (omit st period_name period_months why n) = last_valid st.
Proof. split; reflexivity. Qed.

Lemma last_valid_include (st : validation) (period_name : string)
  (period_months : Z) :
  valid_periods
    (include st period_name period_months
             (count_since df (cutoff dov period_months))
             (cutoff dov period_months))
  = valid_periods st ++ [valid_record dov df period_name period_months]
  /\ last_valid
       (include st period_name period_months
                (count_since df (cutoff dov period_months))
                (cutoff dov period_months))
     = Some (valid_record dov df period_name period_months).
Proof.
  split; [reflexivity|].
  unfold last_valid, include. cbn [valid_periods].
  now rewrite rev_unit.
Qed.

Lemma validate_closed_form (ladder : list (string * Z)) :
  forall st : validation,
    valid_periods (fold_left (validate_period dov df cov) ladder st)
    = valid_periods st
      ++ accepted_after dov df cov
           (option_map Valid.sales_count (last_valid st)) ladder.
Proof.
  induction ladder as [|[period_name period_months] rest IH]; intro st.
  - simpl. now rewrite app_nil_r.
  - cbn [fold_left accepted_after]. unfold within_coverage.
    destruct (fgtb (of_Z period_months) (fadd cov (of_Z buffer_months)))
      eqn:Hcov; cbn [negb].
    + rewrite validate_period_beyond by exact Hcov.
      rewrite IH.
      now rewrite (proj1 (last_valid_omit _ _ _ _ _)),
                  (proj2 (last_valid_omit _ _ _ _ _)).
    + destruct (last_valid st) as [prev|] eqn:Hlast; cbn [option_map].
      * destruct (Nat.eqb_spec (count_since df (cutoff dov period_months))
                               (Valid.sales_count prev)) as [E|E].
        -- rewrite (validate_period_duplicate dov df cov st _ _ prev)
             by assumption.
           rewrite IH.
           rewrite (proj1 (last_valid_omit _ _ _ _ _)),
                   (proj2 (last_valid_omit _ _ _ _ _)), Hlast.
           cbn [option_map negb app]. now rewrite E.
        -- rewrite validate_period_fresh; trivial.
           ++ rewrite IH.
              rewrite (proj1 (last_valid_include _ _ _)),
                      (proj2 (last_valid_include _ _ _)).
              cbn [option_map negb]. now rewrite <- app_assoc.
           ++ intros p Hp. rewrite Hlast in Hp. now injection Hp as <-.
      * rewrite validate_period_fresh; trivial.
        -- rewrite IH.
           rewrite (proj1 (last_valid_include _ _ _)),
                   (proj2 (last_valid_include _ _ _)).
           cbn [option_map]. now rewrite <- app_assoc.
        -- intros p Hp. rewrite Hlast in Hp. discriminate.
Qed.

Lemma accepted_after_no_repeat (ladder : list (string * Z)) :
  forall prev : option nat,
    match prev, accepted_after dov df cov prev ladder with
    | Some c, p :: _ => Valid.sales_count p <> c
    | _, _ => True
    end
    /\ no_adjacent_repeat
         (map Valid.sales_count (accepted_after dov df cov prev ladder)).
Proof.
  induction ladder as [|[period_name period_months] rest IH]; intro prev.
  - simpl. now destruct prev.
  - cbn [accepted_after].
    destruct (within_coverage cov period_months); [|apply IH].
    destruct (IH (Some (count_since df (cutoff dov period_months))))
      as [Hhead Hrest].
    destruct prev as [c|].
    + destruct (Nat.eqb_spec (count_since df (cutoff dov period_months)) c)
        as [E|E]; cbn [negb app].
      * rewrite <- E. split; assumption.
      * split; [exact E|].
        cbn [map no_adjacent_repeat valid_record Valid.sales_count].
        destruct (accepted_after dov df cov _ rest) as [|q l]; [exact I|].
        cbn [map]. split; [|exact Hrest].
        intro H. now apply Hhead.
    + cbn [app]. split; [exact I|].
      cbn [map no_adjacent_repeat valid_record Valid.sales_count].
      destruct (accepted_after dov df cov _ rest) as [|q l]; [exact I|].
      cbn [map]. split; [|exact Hrest].
      intro H. now apply Hhead.
Qed.

End ValidatorClosedForm.

Section ValidatorClosedFormClaims.

(** X5.  The list of valid periods does not depend on the loop's state: a
    ladder entry is valid exactly when it passes the coverage check and its
    sale count differs from the count of the nearest earlier entry that
    passed the check, whether that entry was accepted or omitted as a
    duplicate; the first entry that passes the check is always valid. *)
Theorem valid_periods_closed_form (dov : Timestamp)
  (df : list processed_sale) (ladder : list (string * Z)) :
  valid_periods (validate_ladder dov df ladder)
  = accepted_after dov df (actual_coverage_months dov df) None ladder
  /\ valid_periods (validate_periods dov df)
     = accepted_after dov df (actual_coverage_months dov df) None time_periods.
Proof.
  split; unfold validate_periods, validate_ladder;
    rewrite validate_closed_form; reflexivity.
Qed.

(** X6.  No two neighbouring valid periods have the same sale count. *)
Theorem neighbouring_valid_periods_differ (dov : Timestamp)
  (df : list processed_sale) :
  no_adjacent_repeat
    (map Valid.sales_count (valid_periods (validate_periods dov df))).
Proof.
  unfold validate_periods, validate_ladder.
  rewrite validate_closed_form. cbn [valid_periods no_periods app].
  apply accepted_after_no_repeat.
Qed.

End ValidatorClosedFormClaims.

(** *** Coverage in days, and the windows' counts *)

Section CoverageDays.

Lemma within_coverage_days (dov : Timestamp) (df : list processed_sale)
  (cd period_months : Z) :
  actual_coverage_days dov df = Some cd ->
  within_coverage (actual_coverage_months dov df) period_months = true
  <-> ((period_months - 1) * 3044 <= cd * 100)%Z.
Proof.
  intro Hcd. unfold within_coverage.
  rewrite (coverage_months_of_days dov df cd Hcd).
  rewrite negb_true_iff, within_coverage_iff.
  unfold Qle, Qdiv, Qmult, Qplus, Qinv, inject_Z. simpl. lia.
Qed.

Lemma filter_length_le {A : Type} (f g : A -> bool) (l : list A) :
  (forall x, f x = true -> g x = true) ->
  (List.length (filter f l) <= List.length (filter g l))%nat.
Proof.
  intro H. induction l as [|x l IH]; simpl; trivial.
  destruct (f x) eqn:E.
  - rewrite (H x E). simpl. lia.
  - destruct (g x); simpl; lia.
Qed.

Lemma filter_length_le' {A : Type} (f : A -> bool) (l : list A) :
  (List.length (filter f l) <= List.length l)%nat.
Proof.
  induction l as [|x l IH]; simpl; trivial.
  destruct (f x); simpl; lia.
Qed.

Lemma int_monotone (a b : Z) :
  (0 <= a <= b)%Z ->
  (int (inject_Z a * 30.44) <= int (inject_Z b * 30.44))%Z.
Proof.
  intros [Ha Hab].
  assert (Hq : forall z, (0 <= z)%Z -> Qle_bool 0 (inject_Z z * 30.44) = true).
  { intros z Hz. apply Qle_bool_iff.
    apply Qmult_le_0_compat; [|discriminate].
    change 0 with (inject_Z 0). now rewrite <- Zle_Qle. }
  unfold int. rewrite (Hq a Ha), (Hq b) by lia.
  apply Qfloor_resp_le. apply Qmult_le_compat_r; [|discriminate].
  now rewrite <- Zle_Qle.
Qed.

Lemma window_counts_le (dov : Timestamp) (df : list processed_sale)
  (m1 m2 : Z) :
  (0 <= m1 <= m2)%Z ->
  (count_since df (cutoff dov m1) <= count_since df (cutoff dov m2))%nat.
Proof.
  intro H. unfold count_since. apply filter_length_le. intros s.
  unfold on_or_after. destruct (date_of s) as [t|]; trivial.
  rewrite !Z.leb_le. unfold cutoff, timedelta_days.
  pose proof (int_monotone m1 m2 H) as Hm.
  assert (0 < ticks_per_day)%Z by reflexivity. nia.
Qed.

(** X7.  A longer window never holds fewer sales: for month counts
    [0 <= m1 <= m2] the count of the [m1]-month window is at most that of
    the [m2]-month window, which is at most the number of rows of the
    table. *)
Theorem window_counts_grow_with_months (dov : Timestamp)
  (df : list processed_sale) (m1 m2 : Z) :
  (0 <= m1 <= m2)%Z ->
  (count_since df (cutoff dov m1) <= count_since df (cutoff dov m2)
   <= List.length df)%nat.
Proof.
  intro H. split.
  - now apply window_counts_le.
  - unfold count_since. apply filter_length_le'.
Qed.

Lemma window_counts_grow_with_months_witness :
  (count_since Sample.spread_table (cutoff Sample.dov 6)
   <= count_since Sample.spread_table (cutoff Sample.dov 12)
   <= List.length Sample.spread_table)%nat.
Proof.
  apply (window_counts_grow_with_months Sample.dov Sample.spread_table 6 12).
  lia.
Defined.

End CoverageDays.

Section CoverageAndTrendWindow.

Local Open Scope string_scope.

Lemma mem_In (x : string) (l : list string) : mem x l = true <-> In x l.
Proof.
  unfold mem. rewrite existsb_exists. split.
  - intros (y & Hy & E). apply String.eqb_eq in E. now subst.
  - intro H. exists x. split; [exact H|apply String.eqb_refl].
Qed.

Lemma validate_all_beyond (dov : Timestamp) (df : list processed_sale)
  (cov : fval) (ladder : list (string * Z)) :
  (forall e, In e ladder -> within_coverage cov (snd e) = false) ->
  forall st : validation,
    valid_periods (fold_left (validate_period dov df cov) ladder st)
    = valid_periods st
    /\ omitted_periods (fold_left (validate_period dov df cov) ladder st)
       = (omitted_periods st
          ++ map (fun e => omitted_record dov df (fst e) (snd e)
                             (beyond_coverage_reason cov)) ladder)%list.
Proof.
  induction ladder as [|[period_name period_months] rest IH]; intros H st.
  - simpl. now rewrite app_nil_r.
  - cbn [fold_left].
    assert (Hcov : fgtb (of_Z period_months) (fadd cov (of_Z buffer_months))
                   = true).
    { specialize (H (period_name, period_months) (or_introl eq_refl)).
      unfold within_coverage in H. now apply negb_false_iff in H. }
    rewrite validate_period_beyond by exact Hcov.
    destruct (IH (fun e He => H e (or_intror He))
                 (omit st period_name period_months
                       (beyond_coverage_reason cov)
                       (count_since df (cutoff dov period_months))))
      as [Hv Ho].
    rewrite Hv, Ho. split; [reflexivity|].
    cbn [omit omitted_periods map fst snd]. now rewrite <- app_assoc.
Qed.

Lemma accepted_after_app (dov : Timestamp) (df : list processed_sale)
  (cov : fval) (l1 l2 : list (string * Z)) :
  forall prev,
    accepted_after dov df cov prev (l1 ++ l2)
    = (accepted_after dov df cov prev l1
       ++ accepted_after dov df cov (last_within dov df cov prev l1) l2)%list.
Proof.
  induction l1 as [|[period_name period_months] l1 IH]; intro prev.
  - reflexivity.
  - cbn [app accepted_after]. unfold last_within. cbn [fold_left snd].
    destruct (within_coverage cov period_months).
    + rewrite IH. now rewrite <- app_assoc.
    + apply IH.
Qed.

Lemma accepted_after_names (dov : Timestamp) (df : list processed_sale)
  (cov : fval) (ladder : list (string * Z)) (x : string) :
  forall prev,
    In x (map Valid.name (accepted_after dov df cov prev ladder)) ->
    In x (map fst ladder).
Proof.
  induction ladder as [|[period_name period_months] rest IH]; intro prev.
  - simpl. tauto.
  - cbn [accepted_after map fst].
    destruct (within_coverage cov period_months).
    + rewrite map_app, in_app_iff. intros [H|H].
      * left. destruct prev as [c|];
          [destruct (negb _)|]; simpl in H; tauto.
      * right. now apply (IH _ H).
    + intro H. right. now apply (IH _ H).
Qed.

(** X8.  A table whose earliest sale is at most 60 days before the date of
    value has no valid period: all nine ladder entries are omitted as
    extending beyond the coverage, and the trend is fitted on the whole
    table.  From 61 days of coverage on, "0-3 months" is the first valid
    period. *)
Theorem short_coverage_leaves_no_valid_period (dov : Timestamp)
  (df : list processed_sale) (cd : Z) :
  actual_coverage_days dov df = Some cd ->
  let v := validate_periods dov df in
  ((cd <= 60)%Z ->
   valid_periods v = []
   /\ omitted_periods v
      = map (fun e => omitted_record dov df (fst e) (snd e)
                        (beyond_coverage_reason
                           (actual_coverage_months dov df))) time_periods
   /\ trend_rows dov df (valid_periods v) = df)
  /\ ((61 <= cd)%Z ->
      exists rest,
        valid_periods v = valid_record dov df "0-3 months" 3 :: rest).
Proof.
  intros Hcd v. split.
  - intro Hshort.
    destruct (validate_all_beyond dov df (actual_coverage_months dov df)
                time_periods) with (st := no_periods) as [Hv Ho].
    { intros e He.
      destruct (within_coverage _ (snd e)) eqn:E; [|reflexivity].
      apply (within_coverage_days dov df cd _ Hcd) in E.
      simpl in He.
      repeat (destruct He as [<-|He]; [simpl in E; lia|]). destruct He. }
    assert (Hvalid : valid_periods v = []) by exact Hv.
    split; [exact Hvalid|]. split; [exact Ho|].
    rewrite Hvalid. reflexivity.
  - intro Hlong.
    assert (Hw : within_coverage (actual_coverage_months dov df) 3 = true)
      by (apply (within_coverage_days dov df cd _ Hcd); lia).
    unfold v, validate_periods, validate_ladder.
    rewrite validate_closed_form. cbn [valid_periods no_periods app].
    unfold time_periods. cbn [accepted_after last_valid option_map].
    rewrite Hw. cbn [app]. eexists. reflexivity.
Qed.

Lemma short_coverage_leaves_no_valid_period_witness :
  exists rest,
    valid_periods (validate_periods Sample.dov Sample.spread_table)
    = valid_record Sample.dov Sample.spread_table "0-3 months" 3 :: rest.
Proof.
  assert (Hcd : actual_coverage_days Sample.dov Sample.spread_table
                = Some 250%Z) by (vm_compute; reflexivity).
  destruct (short_coverage_leaves_no_valid_period
              Sample.dov Sample.spread_table 250 Hcd) as [_ Hlong].
  apply Hlong. lia.
Defined.

(** X9.  "0-12 months" is a valid period exactly when the coverage is at
    least 335 days and the 12-month window holds more sales than the
    6-month window.  The trend is then fitted on the sales of the last 365
    days; in every other case it is fitted on the whole table. *)
Theorem twelve_month_window_is_valid_iff (dov : Timestamp)
  (df : list processed_sale) (cd : Z) :
  actual_coverage_days dov df = Some cd ->
  let v := validate_periods dov df in
  let c6 := count_since df (cutoff dov 6) in
  let c12 := count_since df (cutoff dov 12) in
  (In "0-12 months" (map Valid.name (valid_periods v))
   <-> (335 <= cd)%Z /\ (c6 < c12)%nat)
  /\ ((335 <= cd)%Z -> (c6 < c12)%nat ->
      trend_rows dov df (valid_periods v)
      = filter (fun s => on_or_after (date_of s) (cutoff dov 12)) df)
  /\ (~ ((335 <= cd)%Z /\ (c6 < c12)%nat) ->
      trend_rows dov df (valid_periods v) = df).
Proof.
  intros Hcd v c6 c12.
  set (cov := actual_coverage_months dov df).
  assert (Hmono : (c6 <= c12)%nat).
  { apply (window_counts_le dov df 6 12). lia. }
  assert (Hiff : In "0-12 months" (map Valid.name (valid_periods v))
                 <-> (335 <= cd)%Z /\ (c6 < c12)%nat).
  { unfold v, validate_periods, validate_ladder.
    rewrite validate_closed_form. cbn [valid_periods no_periods app].
    cbn [last_valid rev option_map]. fold cov.
    change time_periods
      with ((firstn 5 time_periods
             ++ [("0-12 months", 12%Z)] ++ skipn 6 time_periods)%list).
    rewrite !accepted_after_app, !map_app, !in_app_iff.
    split.
    - intros [H|[H|H]].
      + apply accepted_after_names in H. simpl in H.
        intuition discriminate.
      + cbn [accepted_after] in H.
        destruct (within_coverage cov 12) eqn:Hw12; [|simpl in H; tauto].
        pose proof (proj1 (within_coverage_days dov df cd 12 Hcd) Hw12)
          as H12.
        assert (Hw6 : within_coverage cov 6 = true)
          by (apply (within_coverage_days dov df cd 6 Hcd); lia).
        unfold last_within in H. cbn [firstn time_periods fold_left snd] in H.
        rewrite Hw6 in H. fold c6 c12 in H.
        split; [lia|].
        destruct (Nat.eqb_spec c12 c6) as [E|E]; [simpl in H; tauto|]. lia.
      + apply accepted_after_names in H. simpl in H.
        intuition discriminate.
    - intros [H12 Hlt]. right. left.
      assert (Hw12 : within_coverage cov 12 = true)
        by (apply (within_coverage_days dov df cd 12 Hcd); lia).
      assert (Hw6 : within_coverage cov 6 = true)
        by (apply (within_coverage_days dov df cd 6 Hcd); lia).
      cbn [accepted_after]. rewrite Hw12.
      unfold last_within. cbn [firstn time_periods fold_left snd].
      rewrite Hw6. fold c6 c12.
      destruct (Nat.eqb_spec c12 c6) as [E|E]; [lia|].
      simpl. now left. }
  split; [exact Hiff|]. split.
  - intros H12 Hlt. unfold trend_rows.
    now rewrite (proj2 (mem_In _ _) (proj2 Hiff (conj H12 Hlt))).
  - intro Hnot. unfold trend_rows.
    destruct (mem "0-12 months" (map Valid.name (valid_periods v))) eqn:E;
      [|reflexivity].
    apply mem_In in E. apply Hiff in E. now elim Hnot.
Qed.

Lemma twelve_month_window_is_valid_iff_witness :
  ~ In "0-12 months"
       (map Valid.name
            (valid_periods (validate_periods Sample.dov Sample.spread_table)))
  /\ trend_rows Sample.dov Sample.spread_table
       (valid_periods (validate_periods Sample.dov Sample.spread_table))
     = Sample.spread_table.
Proof.
  assert (Hcd : actual_coverage_days Sample.dov Sample.spread_table
                = Some 250%Z) by (vm_compute; reflexivity).
  destruct (twelve_month_window_is_valid_iff
              Sample.dov Sample.spread_table 250 Hcd) as (Hiff & _ & Hall).
  split.
  - intro H. destruct (proj1 Hiff H) as [H335 _]. lia.
  - apply Hall. lia.
Defined.

End CoverageAndTrendWindow.

(** *** Statistics of the valid periods *)

Section StatisticsOfValidPeriods.

Import PeriodStatistics.

Lemma accepted_after_records (dov : Timestamp) (df : list processed_sale)
  (cov : fval) (ladder : list (string * Z)) :
  forall prev,
    Forall (fun p => p = valid_record dov df (Valid.name p) (Valid.months p))
           (accepted_after dov df cov prev ladder).
Proof.
  induction ladder as [|[period_name period_months] rest IH]; intro prev.
  - constructor.
  - cbn [accepted_after]. destruct (within_coverage cov period_months).
    + apply Forall_app. split; [|apply IH].
      destruct prev as [c|]; [destruct (negb _)|]; repeat constructor.
    + apply IH.
Qed.

Lemma period_row_of_record (dov : Timestamp) (df : list processed_sale)
  (period_name : string) (period_months : Z) :
  let p := valid_record dov df period_name period_months in
  match period_row df p with
  | Some r =>
      Valid.sales_count p <> 0%nat
      /\ Period r = period_name /\ Months r = period_months
      /\ N_Sales r = Valid.sales_count p
      /\ Absorption_Rate r
         = fdiv (of_Z (Z.of_nat (Valid.sales_count p))) (of_Z period_months)
  | None => Valid.sales_count p = 0%nat
  end.
Proof.
  unfold period_row, valid_record. cbn [Valid.cutoff_date Valid.sales_count
    Valid.name Valid.months].
  fold (count_since df (cutoff dov period_months)).
  destruct (Nat.eqb_spec (count_since df (cutoff dov period_months)) 0)
    as [E|E]; [exact E|].
  cbn [Period Months N_Sales Absorption_Rate]. repeat split; trivial.
Qed.

Lemma statistics_of_records (dov : Timestamp) (df : list processed_sale)
  (valid : list Valid.t) :
  Forall (fun p => p = valid_record dov df (Valid.name p) (Valid.months p))
         valid ->
  map (fun r => (Period r, Months r, N_Sales r)) (statistics df valid)
  = map (fun p => (Valid.name p, Valid.months p, Valid.sales_count p))
        (filter (fun p => negb (Valid.sales_count p =? 0)%nat) valid)
  /\ Forall (fun r =>
               N_Sales r <> 0%nat
               /\ Absorption_Rate r
                  = fdiv (of_Z (Z.of_nat (N_Sales r))) (of_Z (Months r)))
            (statistics df valid).
Proof.
  induction 1 as [|p valid Hp _ [IHmap IHall]]; [split; constructor|].
  cbn [statistics filter].
  pose proof (period_row_of_record dov df (Valid.name p) (Valid.months p))
    as Hrow.
  cbv zeta in Hrow. rewrite <- Hp in Hrow.
  destruct (period_row df p) as [r|].
  - destruct Hrow as (Hn & Hname & Hmonths & Hcount & Hrate).
    rewrite (proj2 (Nat.eqb_neq _ _) Hn). cbn [negb map].
    split.
    + now rewrite Hname, Hmonths, Hcount, IHmap.
    + constructor; [|exact IHall].
      rewrite Hcount, Hmonths. split; assumption.
  - rewrite Hrow. cbn [Nat.eqb negb]. split; assumption.
Qed.

(** X10.  The statistics table has one row for each valid period that
    holds at least one sale, in the order of the valid periods; a valid
    period without a sale gets no row.  The row's sale count is the count
    recorded for the period, and its absorption rate is that count over the
    period's months. *)
Theorem statistics_rows_follow_valid_periods (dov : Timestamp)
  (df : list processed_sale) :
  let valid := valid_periods (validate_periods dov df) in
  map (fun r => (Period r, Months r, N_Sales r)) (statistics df valid)
  = map (fun p => (Valid.name p, Valid.months p, Valid.sales_count p))
        (filter (fun p => negb (Valid.sales_count p =? 0)%nat) valid)
  /\ Forall (fun r =>
               N_Sales r <> 0%nat
               /\ Absorption_Rate r
                  = fdiv (of_Z (Z.of_nat (N_Sales r))) (of_Z (Months r)))
            (statistics df valid).
Proof.
  intro valid. apply (statistics_of_records dov). unfold valid.
  unfold validate_periods, validate_ladder.
  rewrite validate_closed_form. cbn [valid_periods no_periods app].
  apply accepted_after_records.
Qed.

End StatisticsOfValidPeriods.

(** *** Days from the date of value, and the coverage *)

Section DaysFromValue.

Lemma days_nonneg (delta : Z) : (0 <= delta)%Z -> (0 <= days delta)%Z.
Proof.
  intro H. unfold days. apply Z.div_pos; [exact H|reflexivity].
Qed.

Lemma days_monotone (a b : Z) : (a <= b)%Z -> (days a <= days b)%Z.
Proof.
  intro H. unfold days. apply Z.div_le_mono; [reflexivity|exact H].
Qed.

(** The fold of [date_min] from a known date. *)
Lemma date_min_from (dov : Timestamp) (l : list processed_sale) :
  Forall (retained dov) l ->
  forall a : Timestamp,
  exists m,
    fold_left (fun acc s =>
                 match acc, date_of s with
                 | Some x, Some d => Some (Z.min x d)
                 | None, d => d
                 | x, None => x
                 end) l (Some a) = Some m
    /\ (m <= a)%Z
    /\ Forall (fun p => forall t, date_of p = Some t -> (m <= t)%Z) l
    /\ (m = a \/ exists p, In p l /\ date_of p = Some m).
Proof.
  induction 1 as [|p l (t & Ht & _) _ IH]; intro a.
  - exists a. repeat split; [lia|constructor|now left].
  - cbn [fold_left]. rewrite Ht.
    destruct (IH (Z.min a t)) as (m & Hm & Hle & Hall & Hin).
    exists m. split; [exact Hm|]. split; [lia|]. split.
    + constructor; [|exact Hall]. intros u Hu. rewrite Ht in Hu.
      injection Hu as <-. lia.
    + destruct Hin as [->|(q & Hq & Hdq)].
      * destruct (Z.min_spec a t) as [[_ ->]|[_ ->]]; [now left|].
        right. exists p. split; [now left|exact Ht].
      * right. exists q. split; [now right|exact Hdq].
Qed.

Lemma date_min_retained (dov : Timestamp) (l : list processed_sale) :
  Forall (retained dov) l -> l <> [] ->
  exists m p,
    date_min l = Some m /\ In p l /\ date_of p = Some m
    /\ Forall (fun q => forall t, date_of q = Some t -> (m <= t)%Z) l.
Proof.
  intros Hret Hne. destruct l as [|p l]; [now elim Hne|].
  inversion Hret as [|? ? (t & Ht & _) Hret']; subst.
  unfold date_min. cbn [fold_left]. rewrite Ht.
  destruct (date_min_from dov l Hret' t) as (m & Hm & Hle & Hall & Hin).
  destruct Hin as [->|(q & Hq & Hdq)].
  - exists t, p. split; [exact Hm|]. split; [now left|]. split; [exact Ht|].
    constructor; [|exact Hall]. intros u Hu. rewrite Ht in Hu.
    injection Hu as <-. lia.
  - exists m, q. split; [exact Hm|]. split; [now right|]. split; [exact Hdq|].
    constructor; [|exact Hall]. intros u Hu. rewrite Ht in Hu.
    injection Hu as <-. lia.
Qed.

(** X11.  In the processed table every row's days from the date of value
    is a whole number that is not negative, and it does not increase down
    the table.  When the table is not empty, the coverage in days is the
    days from the date of value of its oldest sale, the largest of the
    table. *)
Theorem days_from_value_are_bounded_by_coverage (form : form_data)
  (columns : list string) (df : list sale) (code : Z) (out : list log_line)
  (f : files) :
  Market_Analysis form columns df = Exit code out (Some f) ->
  let table := sales_data_processed_csv f in
  let dov := DATE_OF_VALUE form in
  (exists ds,
      map Days_From_DOV table = map Some ds
      /\ Forall (fun d => (0 <= d)%Z) ds
      /\ StronglySorted Z.ge ds)
  /\ (table <> [] ->
      exists cd oldest,
        actual_coverage_days dov table = Some cd
        /\ In oldest table /\ Days_From_DOV oldest = Some cd
        /\ Forall (fun p => exists d, Days_From_DOV p = Some d /\ (d <= cd)%Z)
                  table).
Proof.
  intros H table dov.
  pose proof (Market_Analysis_table _ _ _ _ _ _ H) as Htable.
  fold table dov in Htable.
  assert (Hret : Forall (retained dov) table)
    by (rewrite Htable; apply processed_retained).
  assert (Hsorted : StronglySorted Z.le (dates_of table)).
  { apply (dates_of_sorted dov); [exact Hret|].
    rewrite Htable. apply sort_values_strongly_sorted. }
  split.
  - exists (map (fun t => days (dov - t)) (dates_of table)).
    split; [|split].
    + unfold dates_of. rewrite !map_map. apply map_ext_in. intros p Hp.
      rewrite Forall_forall in Hret. destruct (Hret p Hp) as (t & Ht & _ & _ & Hd).
      now rewrite Ht, Hd.
    + apply Forall_map. destruct (dates_of_retained dov table Hret) as [_ Hle].
      revert Hle. apply Forall_impl. intros t Ht. apply days_nonneg. lia.
    + clear -Hsorted. induction Hsorted as [|t l _ IH Hall]; simpl.
      * constructor.
      * constructor; [exact IH|]. apply Forall_map.
        revert Hall. apply Forall_impl. intros u Hu.
        apply Z.le_ge. apply days_monotone. lia.
  - intro Hne.
    destruct (date_min_retained dov table Hret Hne)
      as (m & p & Hmin & Hp & Hdp & Hall).
    exists (days (dov - m)), p.
    split; [unfold actual_coverage_days; now rewrite Hmin|].
    split; [exact Hp|].
    rewrite Forall_forall in Hret.
    split.
    + destruct (Hret p Hp) as (t & Ht & _ & _ & Hd).
      rewrite Hdp in Ht. injection Ht as <-. exact Hd.
    + apply Forall_forall. intros q Hq.
      destruct (Hret q Hq) as (t & Ht & _ & _ & Hd).
      exists (days (dov - t)). split; [exact Hd|].
      rewrite Forall_forall in Hall. specialize (Hall q Hq t Ht).
      apply days_monotone. lia.
Qed.

Lemma days_from_value_are_bounded_by_coverage_witness :
  exists out f,
    Market_Analysis Sample.form Sample.all_columns Sample.raw_table
    = Exit 0 out (Some f)
    /\ map Days_From_DOV (sales_data_processed_csv f)
       = [Some 223; Some 123; Some 23]%Z
    /\ exists cd oldest,
         actual_coverage_days Sample.dov (sales_data_processed_csv f)
         = Some cd
         /\ In oldest (sales_data_processed_csv f)
         /\ Days_From_DOV oldest = Some cd.
Proof.
  eexists. eexists.
  assert (H : Market_Analysis Sample.form Sample.all_columns Sample.raw_table
              = Exit 0 ?[out] (Some ?[f]))
    by (vm_compute; reflexivity).
  split; [exact H|].
  split; [vm_compute; reflexivity|].
  destruct (days_from_value_are_bounded_by_coverage _ _ _ _ _ _ H)
    as [_ Hcov].
  destruct Hcov as (cd & oldest & Hcd & Hin & Hd & _); [discriminate|].
  exists cd, oldest. repeat split; assumption.
Defined.

End DaysFromValue.

(** *** The living-area adjustment *)

Section SizeAdjustmentOnDoubles.

Import PrimFloat Binary64.
Local Open Scope float_scope.

Lemma adjust_size_cells (cfg : config) (m : float) (s : comparable) :
  SF_Difference (adjust cfg m s) = sf_difference cfg (Living_Area s)
  /\ SF_Difference_Pct (adjust cfg m s)
     = sf_difference_pct cfg (Living_Area s)
  /\ (SF_Adj_Amount (adjust cfg m s), SF_Adj_Pct (adjust cfg m s))
     = sf_adjustment cfg m (Living_Area s).
Proof.
  unfold adjust.
  destruct (time_adjustment cfg _) as [ta tp].
  destruct (sf_adjustment cfg m _) as [sa sp].
  cbn. repeat split.
Qed.

(** The sign of a rounded product is the product of the signs: rounding
    can take it to a zero or an infinity, never across zero. *)
Lemma round_keeps_sign (sx : bool) (mx ex : Z) :
  match SpecFloat.binary_round_aux FloatOps.prec FloatOps.emax sx mx ex
          SpecFloat.loc_Exact with
  | SpecFloat.S754_zero s | SpecFloat.S754_infinity s
  | SpecFloat.S754_finite s _ _ => s = sx
  | SpecFloat.S754_nan => True
  end.
Proof.
  unfold SpecFloat.binary_round_aux.
  destruct (SpecFloat.shr_fexp _ _ mx ex _) as [mrs' e'].
  destruct (SpecFloat.shr_fexp _ _ _ e' _) as [mrs'' e''].
  destruct (SpecFloat.shr_m mrs''); trivial.
  now destruct (e'' <=? FloatOps.emax - FloatOps.prec)%Z.
Qed.

Lemma opposite_times_positive (x m : float) :
  gtb m 0 = true ->
  (gtb x 0 = true -> gtb (- x * m) 0 = false)
  /\ (gtb 0 x = true -> gtb 0 (- x * m) = false).
Proof.
  unfold gtb. rewrite !FloatAxioms.ltb_spec, FloatAxioms.mul_spec,
    FloatAxioms.opp_spec.
  change (FloatOps.Prim2SF 0) with (SpecFloat.S754_zero false).
  destruct (FloatOps.Prim2SF m) as [sm|sm| |sm mm em];
    cbn; try discriminate; destruct sm; try discriminate; intros _;
    (destruct (FloatOps.Prim2SF x) as [sx|sx| |sx mx ex];
     cbn; split; try discriminate; destruct sx; try discriminate;
     intros _; try reflexivity).
  - pose proof (round_keeps_sign true (Z.pos (mx * mm)) (ex + em)) as H.
    unfold FloatAxioms.SF64mul. cbn [SpecFloat.SFmul negb xorb].
    destruct (SpecFloat.binary_round_aux _ _ _ _ _ _) as [s|s| |s mr er];
      try reflexivity; now subst s.
  - pose proof (round_keeps_sign false (Z.pos (mx * mm)) (ex + em)) as H.
    unfold FloatAxioms.SF64mul. cbn [SpecFloat.SFmul negb xorb].
    destruct (SpecFloat.binary_round_aux _ _ _ _ _ _) as [s|s| |s mr er];
      try reflexivity; now subst s.
Qed.

(** X12.  On doubles, let [diff] be the comparable's living area minus the
    subject's and [pct] be [diff / subject * 100], each operation rounded.
    When [|pct|] strictly exceeds the threshold, the size adjustment is
    [-diff] times the marginal value and its percentage is
    [-(diff / subject) * 100]; with a positive marginal value a comparable
    larger than the subject is never adjusted up and a smaller one never
    down.  When [|pct|] does not exceed the threshold, or is NaN, both are
    zero.  The comparison is made on the rounded percentage: there are a
    subject, a comparable and a threshold, all whole numbers, with the exact
    percentage equal to the threshold, that get the adjustment. *)
Theorem size_adjustment_iff_beyond_threshold (cfg : config) (m : float)
  (s : comparable) :
  let a := adjust cfg m s in
  let subject := of_int (SUBJECT_LIVING_AREA cfg) in
  let diff := Living_Area s - subject in
  let pct := diff / subject * 100 in
  SF_Difference a = diff /\ SF_Difference_Pct a = pct
  /\ (gtb (abs pct) (SF_THRESHOLD_PCT cfg) = true ->
      SF_Adj_Amount a = - diff * m
      /\ SF_Adj_Pct a = - (diff / subject) * 100
      /\ (gtb m 0 = true -> gtb diff 0 = true ->
          gtb (SF_Adj_Amount a) 0 = false)
      /\ (gtb m 0 = true -> gtb 0 diff = true ->
          gtb 0 (SF_Adj_Amount a) = false))
  /\ (gtb (abs pct) (SF_THRESHOLD_PCT cfg) = false ->
      SF_Adj_Amount a = 0 /\ SF_Adj_Pct a = 0)
  /\ exists subject' living threshold : Z,
       (0 < subject')%Z
       /\ ((living - subject') * 100 = threshold * subject')%Z
       /\ gtb (abs (sf_difference_pct
                      (sample_config subject' (of_int threshold))
                      (of_int living)))
              (of_int threshold) = true.
Proof.
  intros a subject diff pct.
  destruct (adjust_size_cells cfg m s) as (Hdiff & Hpct & Hpair).
  fold a in Hdiff, Hpct, Hpair.
  split; [exact Hdiff|]. split; [exact Hpct|].
  unfold sf_adjustment in Hpair. cbv zeta in Hpair.
  change (sf_difference_pct cfg (Living_Area s)) with pct in Hpair.
  change (sf_difference cfg (Living_Area s)) with diff in Hpair.
  fold subject in Hpair.
  split; [|split].
  - intro Hbeyond. rewrite Hbeyond in Hpair.
    apply pair_equal_spec in Hpair as [Hamount Hadjpct].
    split; [exact Hamount|]. split; [exact Hadjpct|].
    rewrite Hamount.
    split; intros Hm Hd; now apply (opposite_times_positive diff m Hm).
  - intro Hwithin. rewrite Hwithin in Hpair.
    now apply pair_equal_spec in Hpair.
  - exists 1000%Z, 1070%Z, 7%Z.
    split; [lia|]. split; [reflexivity|]. vm_compute. reflexivity.
Qed.

(** A comparable of 1070 square feet against a subject of 1000 with a
    threshold of 7 percent: the percentage computed is 7.000000000000001. *)
Lemma size_adjustment_iff_beyond_threshold_witness :
  let a := adjust (sample_config 1000 7) 100 (sample_sale 300000 10 1070) in
  SF_Difference_Pct a = 7.000000000000001
  /\ SF_Adj_Amount a = -7000
  /\ SF_Adj_Pct a = -7.000000000000001
  /\ gtb (SF_Adj_Amount a) 0 = false.
Proof.
  intro a.
  destruct (size_adjustment_iff_beyond_threshold (sample_config 1000 7) 100
              (sample_sale 300000 10 1070))
    as (_ & Hpct & Hbeyond & _).
  destruct Hbeyond as (Hamount & Hadjpct & Hdown & _);
    [vm_compute; reflexivity|].
  fold a in Hpct, Hamount, Hadjpct, Hdown.
  split; [rewrite Hpct; vm_compute; reflexivity|].
  split; [rewrite Hamount; vm_compute; reflexivity|].
  split; [rewrite Hadjpct; vm_compute; reflexivity|].
  apply Hdown; vm_compute; reflexivity.
Defined.

End SizeAdjustmentOnDoubles.

Section SizeAdjustmentClaims.

Import AdjustmentAnalysis.

(** X13.  A comparable whose living area is missing (NaN) is kept and gets
    no size adjustment: the difference and its percentage are NaN, which
    compares false with the threshold, so amount and percentage stay zero;
    its price per square foot and adjusted price per square foot are NaN. *)
Theorem missing_living_area_gets_no_size_adjustment (cfg : config)
  (m : fval) (s : processed_sale) :
  Living_Area (row s) = NaN ->
  let a := adjust cfg m s in
  comp a = s
  /\ SF_Difference a = NaN /\ SF_Difference_Pct a = NaN
  /\ SF_Adj_Amount a = fin 0 /\ SF_Adj_Pct a = fin 0
  /\ Adjusted_Price_Per_SF a = NaN
  /\ fdiv (Sale_Price (row s)) (Living_Area (row s)) = NaN.
Proof.
  intros Hnan a.
  destruct (adjust_sf cfg m s) as [Hpair Hpsf].
  destruct (adjust_sf_difference cfg m s) as [Hdiff Hpct].
  fold a in Hpair, Hpsf, Hdiff, Hpct.
  rewrite Hnan in Hpair, Hpsf, Hdiff, Hpct.
  assert (Hd : sf_difference cfg NaN = NaN) by reflexivity.
  assert (Hp : sf_difference_pct cfg NaN = NaN) by reflexivity.
  assert (Ha : sf_adjustment cfg m NaN = (fin 0, fin 0)).
  { unfold sf_adjustment. rewrite Hp. cbn [fabs]. unfold fgtb.
    now destruct (SF_THRESHOLD_PCT cfg). }
  rewrite Ha in Hpair. apply pair_equal_spec in Hpair as [Hamount Hadjpct].
  split; [apply adjust_comp|].
  split; [now rewrite Hdiff|]. split; [now rewrite Hpct|].
  split; [exact Hamount|]. split; [exact Hadjpct|].
  split.
  - rewrite Hpsf. now destruct (Adjusted_Sale_Price a).
  - rewrite Hnan. now destruct (Sale_Price (row s)).
Qed.

Lemma missing_living_area_gets_no_size_adjustment_witness :
  let s :=
    derive Sample.dov
      {| Sale_Price := of_Z 250000; Sale_Date := Some Sample.dov;
         Living_Area := NaN; Street_Number := "3"%string;
         Street_Name := "Bay"%string |} in
  let a := adjust Sample.cfg (fin 100) s in
  SF_Adj_Amount a = fin 0 /\ Adjusted_Price_Per_SF a = NaN
  /\ Price_Per_SF s = NaN.
Proof.
  intros s a.
  destruct (missing_living_area_gets_no_size_adjustment Sample.cfg (fin 100)
              s eq_refl) as (_ & _ & _ & Hamount & _ & Hpsf & Hprice).
  repeat split; assumption.
Defined.

End SizeAdjustmentClaims.

(** *** Comparables within both thresholds, and the summary counts *)

Section UnadjustedOnDoubles.

Import PrimFloat Binary64.
Local Open Scope float_scope.

(** Adding [0.0] changes no double but [-0.0], which it turns into
    [0.0]. *)
Lemma add_zero_r (x : float) : negative_zero x = false -> x + 0 = x.
Proof.
  unfold negative_zero. intro H.
  apply FloatAxioms.Prim2SF_inj. rewrite FloatAxioms.add_spec.
  change (FloatOps.Prim2SF 0) with (SpecFloat.S754_zero false).
  destruct (FloatOps.Prim2SF x) as [sx|sx| |sx mx ex]; try reflexivity.
  destruct sx; [discriminate|reflexivity].
Qed.

(** X14.  On doubles, a comparable sold within the time threshold of the
    date of value, and whose size difference in percent as the script
    computes it does not exceed the size threshold, is left as it is: the
    four adjustment cells and the two net adjustments are zero, the
    adjusted price is the sale price (a sale price of [-0.0] apart, which
    becomes [0.0]), and the adjusted price per square foot is the sale
    price over the living area. *)
Theorem comparable_within_thresholds_is_unadjusted (cfg : config) (m : float)
  (s : comparable) (sold_on : Timestamp) :
  Sale_Date s = Some sold_on ->
  (Z.abs (days (DATE_OF_VALUE cfg - sold_on)) <= TIME_THRESHOLD_DAYS cfg)%Z ->
  gtb (abs (sf_difference_pct cfg (Living_Area s))) (SF_THRESHOLD_PCT cfg)
  = false ->
  negative_zero (Sale_Price s) = false ->
  let a := adjust cfg m s in
  Time_Adj_Amount a = 0 /\ Time_Adj_Pct a = 0
  /\ SF_Adj_Amount a = 0 /\ SF_Adj_Pct a = 0
  /\ Net_Adj_Amount a = 0 /\ Net_Adj_Pct a = 0
  /\ Adjusted_Sale_Price a = Sale_Price s
  /\ Adjusted_Price_Per_SF a = Sale_Price s / Living_Area s.
Proof.
  intros Hdate Hdays Hsize Hprice a. unfold a, adjust.
  rewrite Hdate. cbn [dt_days].
  unfold time_adjustment.
  destruct (Z.gtb_spec (Z.abs (days (DATE_OF_VALUE cfg - sold_on)))
              (TIME_THRESHOLD_DAYS cfg)) as [Hgt|_]; [lia|].
  unfold sf_adjustment. cbv zeta. rewrite Hsize.
  cbn [Time_Adj_Amount Time_Adj_Pct SF_Adj_Amount SF_Adj_Pct Net_Adj_Amount
       Net_Adj_Pct Adjusted_Sale_Price Adjusted_Price_Per_SF].
  change (0 + 0) with 0.
  rewrite (add_zero_r _ Hprice). repeat split.
Qed.

(** A sale 30 days old, of 1040 square feet against a subject of 1000, with
    thresholds of 30 days and 5 percent. *)
Lemma comparable_within_thresholds_is_unadjusted_witness :
  let s := sample_sale 300000 30 1040 in
  let a := adjust (sample_config 1000 5) 100 s in
  Net_Adj_Amount a = 0 /\ Net_Adj_Pct a = 0
  /\ Adjusted_Sale_Price a = 300000
  /\ Adjusted_Price_Per_SF a = 300000 / 1040.
Proof.
  intros s a.
  destruct (comparable_within_thresholds_is_unadjusted (sample_config 1000 5)
              100 s ((19723 - 30) * ticks_per_day)%Z)
    as (_ & _ & _ & _ & Hnet & Hpct & Hadj & Hpsf);
    try (vm_compute; reflexivity).
  - vm_compute. discriminate.
  - fold a in Hnet, Hpct, Hadj, Hpsf. repeat split; assumption.
Defined.

End UnadjustedOnDoubles.

Section AdjustmentCounts.

Import AdjustmentAnalysis AdjustmentScript.







End AdjustmentCounts.

(** *** The adjustment script on the files of the market analysis *)

Section AdjustmentAfterMarketAnalysis.

Import AdjustmentAnalysis AdjustmentScript.

Lemma analyse_info (form : form_data) (kept : list sale)
  (out out' : list log_line) (code : Z) (f : files) :
  analyse form kept out = Exit code out' (Some f) ->
  exists tr,
    vi_trend_results (validation_info_json f) = Some tr
    /\ vi_thresholds (validation_info_json f)
       = Some (TIME_ADJUSTMENT_THRESHOLD_DAYS form,
               LIVING_AREA_ADJUSTMENT_THRESHOLD_PCT form)
    /\ vi_date_of_value (validation_info_json f)
       = MarketAnalysis.DATE_OF_VALUE form
    /\ vi_subject_living_area (validation_info_json f)
       = MarketAnalysis.SUBJECT_LIVING_AREA form.
Proof.
  unfold analyse. destruct (trend_analysis _) as [t|]; [|discriminate].
  intro H. apply (f_equal written_info) in H.
  cbn [written_info] in H. apply (f_equal (fun o => match o with
                                                    | Some vi => vi
                                                    | None => validation_info_json f
                                                    end)) in H.
  cbv beta iota in H. rewrite <- H.
  eexists. cbn [validation_info_json vi_trend_results vi_thresholds
                vi_date_of_value vi_subject_living_area].
  repeat split.
Qed.

Lemma sort_values_nil (l : list processed_sale) :
  sort_values l = [] -> l = [].
Proof.
  intro H. pose proof (sort_values_perm l) as Hp. rewrite H in Hp.
  now apply Permutation_nil in Hp.
Qed.

(** X16.  The adjustment script run on the two files of the market
    analysis.  After a run that kept no sale it stops with a [KeyError] on
    [thresholds]: the validation record of that branch has no thresholds.
    After a run that kept sales it reads back the date of value, both
    thresholds and the subject's living area of the form, and the daily and
    monthly change of the trend; the day difference it computes for each
    row is the row's days from the date of value. *)
Theorem adjustment_script_reads_market_analysis_files (form : form_data)
  (columns : list string) (df : list sale) (code : Z) (out : list log_line)
  (f : files) :
  Market_Analysis form columns df = Exit code out (Some f) ->
  let vi := validation_info_json f in
  let table := sales_data_processed_csv f in
  (table = [] -> run vi table = KeyError "thresholds")
  /\ (table <> [] ->
      exists cfg tr,
        load_config vi = inl cfg
        /\ vi_trend_results vi = Some tr
        /\ DATE_OF_VALUE cfg = MarketAnalysis.DATE_OF_VALUE form
        /\ TIME_THRESHOLD_DAYS cfg = TIME_ADJUSTMENT_THRESHOLD_DAYS form
        /\ SF_THRESHOLD_PCT cfg = LIVING_AREA_ADJUSTMENT_THRESHOLD_PCT form
        /\ SUBJECT_LIVING_AREA cfg = MarketAnalysis.SUBJECT_LIVING_AREA form
        /\ daily_price_change cfg = TrendResults.daily_price_change tr
        /\ monthly_trend_pct cfg = TrendResults.monthly_price_change_pct tr
        /\ forall m,
             Forall (fun s =>
                       Days_Difference (adjust cfg m s) = Days_From_DOV s)
                    table).
Proof.
  intros H vi table.
  pose proof (Market_Analysis_table _ _ _ _ _ _ H) as Htable.
  fold table in Htable.
  assert (Hret : Forall (retained (MarketAnalysis.DATE_OF_VALUE form)) table)
    by (rewrite Htable; apply processed_retained).
  unfold Market_Analysis in H.
  destruct (missing_final columns); [|discriminate].
  destruct (missing_fields form); [|discriminate].
  destruct (filter_on_or_before (MarketAnalysis.DATE_OF_VALUE form) df)
    as [|s0 kept] eqn:Hkept.
  - assert (Hvi : vi = empty_validation_info form).
    { apply (f_equal written_info) in H. cbn [written_info] in H.
      unfold vi. injection H as H. now rewrite <- H. }
    split.
    + intros _. unfold run. now rewrite Hvi.
    + intro Hne. exfalso. apply Hne. rewrite Htable. unfold processed.
      now rewrite Hkept.
  - split.
    + intro Hnil. exfalso. rewrite Htable in Hnil. unfold processed in Hnil.
      rewrite Hkept in Hnil. apply sort_values_nil in Hnil. discriminate.
    + intros _.
      destruct (analyse_info _ _ _ _ _ _ H) as (tr & Htr & Hthr & Hdov & Hsub).
      fold vi in Htr, Hthr, Hdov, Hsub.
      eexists. exists tr. unfold load_config. rewrite Hthr, Htr.
      split; [reflexivity|]. cbn [DATE_OF_VALUE TIME_THRESHOLD_DAYS
        SF_THRESHOLD_PCT SUBJECT_LIVING_AREA daily_price_change
        monthly_trend_pct].
      repeat (split; [first [reflexivity | assumption]|]).
      intro m. revert Hret. apply Forall_impl.
      intros s (t & Ht & _ & _ & Hd).
      rewrite (proj1 (adjust_time _ m s)). cbn [DATE_OF_VALUE].
      now rewrite Hdov, Ht, Hd.
Qed.

Lemma adjustment_script_reads_market_analysis_files_witness :
  (exists out f,
      Market_Analysis Sample.form Sample.all_columns Sample.late_table
      = Exit 0 out (Some f)
      /\ run (validation_info_json f) (sales_data_processed_csv f)
         = KeyError "thresholds")
  /\ exists out f cfg,
       Market_Analysis Sample.form Sample.all_columns Sample.raw_table
       = Exit 0 out (Some f)
       /\ load_config (validation_info_json f) = inl cfg
       /\ TIME_THRESHOLD_DAYS cfg = 30%Z.
Proof.
  split.
  - eexists. eexists.
    assert (H : Market_Analysis Sample.form Sample.all_columns
                  Sample.late_table = Exit 0 ?[out] (Some ?[f]))
      by (vm_compute; reflexivity).
    split; [exact H|].
    destruct (adjustment_script_reads_market_analysis_files _ _ _ _ _ _ H)
      as [Hempty _].
    apply Hempty. reflexivity.
  - eexists. eexists.
    assert (H : Market_Analysis Sample.form Sample.all_columns
                  Sample.raw_table = Exit 0 ?[out] (Some ?[f]))
      by (vm_compute; reflexivity).
    destruct (adjustment_script_reads_market_analysis_files _ _ _ _ _ _ H)
      as [_ Hfull].
    destruct Hfull as (cfg & tr & Hload & _ & _ & Hthr & _); [discriminate|].
    exists cfg. split; [exact H|]. split; [exact Hload|exact Hthr].
Defined.

End AdjustmentAfterMarketAnalysis.
